(** * Power BI publisher scripts: upload, polling, retry and token cache

    A shallow embedding of [powerbi_publisher.py] and
    [publish_powerbi_report.py].  Python code that talks to the network,
    reads the clock, sleeps, prints or raises is written in a small
    state-and-exception monad over an explicit [world]; the remote service
    and the file system are parameters of the program. *)

From Stdlib Require Import ZArith QArith List String Ascii Bool Lia
  DecimalString.
Import ListNotations.
Close Scope Q_scope.
Local Open Scope string_scope.
Local Open Scope Z_scope.

(* ===================================================================== *)
(** * The Python fragment the scripts rely on                               *)
(* ===================================================================== *)

Module Py.

(** ** Text.  Strings are byte strings; [str.lower] is modelled on the
    ASCII letters and leaves every other byte alone. *)

Definition lower_ascii (c : ascii) : ascii :=
  let n := N_of_ascii c in
  if ((65 <=? n) && (n <=? 90))%N then ascii_of_N (n + 32) else c.

Fixpoint lower (s : string) : string :=
  match s with
  | EmptyString => EmptyString
  | String c r => String (lower_ascii c) (lower r)
  end.

(** [needle in hay] on strings. *)
Fixpoint contains (needle hay : string) : bool :=
  if String.prefix needle hay then true
  else match hay with
       | EmptyString => false
       | String _ r => contains needle r
       end.

(** ** Values, as [response.json()] hands them to the program. *)

#[warnings="-register-all"]
Inductive value : Type :=
| VNone
| VBool (b : bool)
| VInt (n : Z)
| VStr (s : string)
| VList (items : list value)
| VDict (fields : list (string * value)).

Fixpoint assoc {A : Type} (k : string) (l : list (string * A)) : option A :=
  match l with
  | [] => None
  | (k', v) :: r => if String.eqb k k' then Some v else assoc k r
  end.

(** Truth value of an object in [if x:] and [x and y]. *)
Definition truthy (v : value) : bool :=
  match v with
  | VNone => false
  | VBool b => b
  | VInt n => negb (n =? 0)
  | VStr s => negb (String.eqb s "")
  | VList l => match l with [] => false | _ => true end
  | VDict l => match l with [] => false | _ => true end
  end.

(** [v == "literal"]. *)
Definition eq_str (v : value) (s : string) : bool :=
  match v with
  | VStr t => String.eqb t s
  | _ => false
  end.

(** ** [pathlib.Path], through the attributes the scripts read. *)

Record Path : Type := mkPath
  { path_text : string;   (* str(p) *)
    name : string;        (* p.name *)
    stem : string;        (* p.stem *)
    suffix : string }.    (* p.suffix *)

(** ** Exceptions, by class. *)

Inductive exn_class : Type :=
| Exception_
| ValueError
| FileNotFoundError
| TimeoutError
| KeyError
| TypeError
| AttributeError
| JSONDecodeError
| RequestException.

(** ** f-strings, kept as the sequence of their pieces. *)

Inductive frag : Type :=
| Lit (s : string)               (* literal text *)
| FStr (s : string)              (* {s} for a str *)
| FInt (n : Z)                   (* {n} for an int *)
| FVal (v : value)               (* {v} for any decoded value *)
| FFixed (digits : nat) (q : Q)  (* {q:.1f}, {q:.2f} *)
| FPath (p : Path)               (* {p} for a Path *)
| FExc (c : exn_class).          (* {str(e)} for a caught exception *)

Definition fstring := list frag.

(** ** Exceptions. *)

Record exn : Type := mkExn { cls : exn_class; msg : fstring }.

Definition exn_class_eqb (a b : exn_class) : bool :=
  match a, b with
  | Exception_, Exception_ | ValueError, ValueError
  | FileNotFoundError, FileNotFoundError | TimeoutError, TimeoutError
  | KeyError, KeyError | TypeError, TypeError
  | AttributeError, AttributeError | JSONDecodeError, JSONDecodeError
  | RequestException, RequestException => true
  | _, _ => false
  end.

(** ** HTTP, as the [requests] library shows it. *)

Inductive method : Type := GET | POST | PUT | DELETE.

Inductive payload : Type :=
| NoBody
| FormData (data : list (string * string))      (* data={...} *)
| Files (field : string) (filename : string) (p : Path)  (* files={...} *)
| FileData (p : Path)                            (* data=f *)
| JsonBody (body : list (string * fstring)).     (* json={...} *)

Record request : Type := mkRequest
  { meth : method;
    url : fstring;
    headers : list (string * fstring);
    params : list (string * fstring);
    body : payload;
    timeout_s : option Z }.

Record response : Type := mkResponse
  { status_code : Z;
    resp_headers : list (string * string);
    text : string;              (* response.text *)
    json : option value }.      (* response.json(), None when it raises *)

(** What the network does with one request: the call takes [took] seconds
    and either fails below HTTP or yields a response. *)
Inductive reply : Type :=
| NetworkFailure (took : N)
| Responds (took : N) (r : response).

Definition took_of (r : reply) : N :=
  match r with NetworkFailure t => t | Responds t _ => t end.

(** The remote side: it sees every request sent so far, newest first, and
    answers the newest one. *)
Definition Server := list request -> reply.

(** [response.headers] is case-insensitive in its keys. *)
Fixpoint headers_get (k : string) (l : list (string * string)) : option string :=
  match l with
  | [] => None
  | (k', v) :: r => if String.eqb (lower k) (lower k') then Some v
                    else headers_get k r
  end.

(** ** [int(s)] for a string: optional white space around an optionally
    signed run of decimal digits, single underscores allowed between
    digits. *)

Definition is_space (c : ascii) : bool :=
  let n := N_of_ascii c in
  (((9 <=? n) && (n <=? 13)) || ((28 <=? n) && (n <=? 32)))%N.

Definition digit_of (c : ascii) : option Z :=
  let n := N_of_ascii c in
  if ((48 <=? n) && (n <=? 57))%N then Some (Z.of_N (n - 48)) else None.

Fixpoint lstrip (s : string) : string :=
  match s with
  | String c r => if is_space c then lstrip r else s
  | EmptyString => EmptyString
  end.

Fixpoint rev_string (s acc : string) : string :=
  match s with
  | EmptyString => acc
  | String c r => rev_string r (String c acc)
  end.

Definition strip (s : string) : string :=
  rev_string (lstrip (rev_string (lstrip s) "")) "".

Fixpoint digits (s : string) (acc : Z) (after_digit : bool) : option Z :=
  match s with
  | EmptyString => if after_digit then Some acc else None
  | String c r =>
      match digit_of c with
      | Some d => digits r (10 * acc + d) true
      | None =>
          if Ascii.eqb c "_" && after_digit then digits r acc false
          else None
      end
  end.

Definition int_of_str (s : string) : option Z :=
  match strip s with
  | String "+" r => digits r 0 false
  | String "-" r => option_map Z.opp (digits r 0 false)
  | t => digits t 0 false
  end.

(** ** The world a run of a script acts on. *)

Inductive level : Type := INFO | WARNING | ERROR.

Inductive event : Type :=
| Printed (line : fstring)
| Logged (lvl : level) (line : fstring).

Section World.

(** [H] is the state of the objects the program mutates. *)
Context {H : Type}.

Record world : Type := mkWorld
  { now : Z;                 (* time.time(), in seconds *)
    sent : list request;     (* requests sent, newest first *)
    slept : list Z;          (* arguments of time.sleep, newest first *)
    output : list event;     (* printed and logged lines, newest first *)
    heap : H }.

Inductive outcome (A : Type) : Type :=
| Returns (a : A)
| Raises (e : exn)
| Diverges.                  (* the model ran out of fuel *)

Definition M (A : Type) : Type := world -> outcome A * world.

Definition ret {A} (a : A) : M A := fun w => (Returns A a, w).

Definition bind {A B} (c : M A) (k : A -> M B) : M B :=
  fun w =>
    match c w with
    | (Returns _ a, w') => k a w'
    | (Raises _ e, w') => (Raises B e, w')
    | (Diverges _, w') => (Diverges B, w')
    end.

Definition raise {A} (c : exn_class) (m : fstring) : M A :=
  fun w => (Raises A (mkExn c m), w).

Definition reraise {A} (e : exn) : M A := fun w => (Raises A e, w).

Definition diverge {A} : M A := fun w => (Diverges A, w).

(** [try: c  except cls as e: h e]. *)
Definition try_except {A} (c : M A) (c0 : exn_class) (h : exn -> M A) : M A :=
  fun w =>
    match c w with
    | (Raises _ e, w') => if exn_class_eqb (cls e) c0 then h e w'
                          else (Raises A e, w')
    | r => r
    end.

(** An optional result, [None] raising the given exception. *)
Definition expect {A} (o : option A) (c : exn_class) (m : fstring) : M A :=
  match o with
  | Some a => ret a
  | None => raise c m
  end.

Definition get_heap : M H := fun w => (Returns H (heap w), w).

Definition set_heap (h : H) : M unit :=
  fun w => (Returns unit tt,
            mkWorld (now w) (sent w) (slept w) (output w) h).

(** [time.time()] *)
Definition time_time : M Z := fun w => (Returns Z (now w), w).

(** [time.sleep(d)]: a negative length is refused. *)
Definition time_sleep (d : Z) : M unit :=
  fun w =>
    if d <? 0 then
      (Raises unit (mkExn ValueError [Lit "sleep length must be non-negative"]), w)
    else
      (Returns unit tt,
       mkWorld (now w + d) (sent w) (d :: slept w) (output w) (heap w)).

Definition emit (e : event) : M unit :=
  fun w => (Returns unit tt,
            mkWorld (now w) (sent w) (slept w) (e :: output w) (heap w)).

(** [print(...)] and [logger.info/warning/error(...)] *)
Definition print (line : fstring) : M unit := emit (Printed line).
Definition log (lvl : level) (line : fstring) : M unit := emit (Logged lvl line).

Section Network.

Variable server : Server.

(** One call of [requests.request] / [requests.post] / [requests.put]. *)
Definition http (rq : request) : M response :=
  fun w =>
    let history := rq :: sent w in
    let w' := mkWorld (now w + Z.of_N (took_of (server history)))
                      history (slept w) (output w) (heap w) in
    (match server history with
     | NetworkFailure _ => Raises response (mkExn RequestException [])
     | Responds _ r => Returns response r
     end, w').

End Network.

(** [response.json()] *)
Definition response_json (r : response) : M value :=
  expect (json r) JSONDecodeError [].

(** [v[k]] for a string key. *)
Definition subscript (v : value) (k : string) : M value :=
  match v with
  | VDict fields => expect (assoc k fields) KeyError [FStr k]
  | _ => raise TypeError []
  end.

(** [v.get(k, default)] *)
Definition dict_get (v : value) (k : string) (default : value) : M value :=
  match v with
  | VDict fields =>
      ret (match assoc k fields with Some x => x | None => default end)
  | _ => raise AttributeError [Lit "get"]
  end.

(** [v.lower()] *)
Definition str_lower (v : value) : M string :=
  match v with
  | VStr s => ret (lower s)
  | _ => raise AttributeError [Lit "lower"]
  end.

(** The items a [for x in v] loop visits. *)
Definition iterate (v : value) : M (list value) :=
  match v with
  | VList items => ret items
  | VDict fields => ret (map (fun kv => VStr (fst kv)) fields)
  | VStr s => ret (map (fun c => VStr (String c EmptyString)) (list_ascii_of_string s))
  | _ => raise TypeError [Lit "not iterable"]
  end.

(** [float + v] *)
Definition add_number (t : Z) (v : value) : M Z :=
  match v with
  | VInt n => ret (t + n)
  | VBool b => ret (t + (if b then 1 else 0))
  | _ => raise TypeError [Lit "+"]
  end.

(** [try: c  except Exception as e: h e]; every class above derives from
    [Exception]. *)
Definition try_except_any {A} (c : M A) (h : exn -> M A) : M A :=
  fun w =>
    match c w with
    | (Raises _ e, w') => h e w'
    | r => r
    end.

End World.

Arguments world : clear implicits.
Arguments M : clear implicits.
Arguments outcome : clear implicits.
Arguments Returns {A} a.
Arguments Raises {A} e.
Arguments Diverges {A}.

(** [range(n)] *)
Definition range (n : nat) : list Z := map Z.of_nat (seq 0 n).

End Py.

Import Py.

Declare Scope py_scope.
Delimit Scope py_scope with py.
Notation "x <- c ;; k" := (bind c (fun x => k))
  (at level 61, c at next level, right associativity) : py_scope.
Notation "c ;; k" := (bind c (fun _ => k))
  (at level 61, right associativity) : py_scope.
Local Open Scope py_scope.

(* ===================================================================== *)
(** * powerbi_publisher.py                                                  *)
(* ===================================================================== *)

Module Publisher.

Definition POWER_BI_API_BASE : string := "https://api.powerbi.com/v1.0/myorg".
Definition AZURE_LOGIN_URL (tenant_id : string) : fstring :=
  [Lit "https://login.microsoftonline.com/"; FStr tenant_id;
   Lit "/oauth2/v2.0/token"].
Definition POWER_BI_SCOPE : string :=
  "https://analysis.windows.net/powerbi/api/.default".

(** ** class PowerBIAuth *)

Record PowerBIAuth : Type := mkAuth
  { tenant_id : string;
    client_id : string;
    client_secret : string;
    access_token : value;
    token_expiry : Z }.

(** [__init__] *)
Definition init_auth (tenant client secret : string) : PowerBIAuth :=
  mkAuth tenant client secret VNone 0.

Definition set_access_token (v : value) : M PowerBIAuth unit :=
  self <- get_heap ;;
  set_heap (mkAuth (tenant_id self) (client_id self) (client_secret self)
                   v (token_expiry self)).

Definition set_token_expiry (t : Z) : M PowerBIAuth unit :=
  self <- get_heap ;;
  set_heap (mkAuth (tenant_id self) (client_id self) (client_secret self)
                   (access_token self) t).

Section Program.

Variable server : Server.
(** [stat p] is the size in bytes of the file at [p], [None] when
    [p.exists()] is false. *)
Variable stat : Path -> option Z.

Definition token_request (self : PowerBIAuth) : request :=
  mkRequest POST (AZURE_LOGIN_URL (tenant_id self)) [] []
    (FormData [("grant_type", "client_credentials");
               ("client_id", client_id self);
               ("client_secret", client_secret self);
               ("scope", POWER_BI_SCOPE)])
    None.

(** [PowerBIAuth.get_token] *)
Definition get_token : M PowerBIAuth value :=
  self <- get_heap ;;
  cached <- (if truthy (access_token self)
             then t <- time_time ;; ret (t <? token_expiry self - 60)
             else ret false) ;;
  if cached then ret (access_token self)
  else
    response <- http server (token_request self) ;;
    if negb (status_code response =? 200) then
      raise Exception_ [Lit "Authentication failed: "; FStr (text response)]
    else
      token_data <- response_json response ;;
      tok <- subscript token_data "access_token" ;;
      set_access_token tok ;;
      t <- time_time ;;
      lifetime <- dict_get token_data "expires_in" (VInt 3600) ;;
      expiry <- add_number t lifetime ;;
      set_token_expiry expiry ;;
      self' <- get_heap ;;
      ret (access_token self').

(** ** class PowerBIClient *)

(** [_request]: every call asks the authenticator for the token first. *)
Definition _request (m : method) (endpoint : fstring)
    (params : list (string * fstring)) (body : payload) : M PowerBIAuth response :=
  tok <- get_token ;;
  http server (mkRequest m (Lit POWER_BI_API_BASE :: endpoint)
                 [("Authorization", [Lit "Bearer "; FVal tok])]
                 params body None).

Definition list_workspaces : M PowerBIAuth value :=
  response <- _request GET [Lit "/groups"] [] NoBody ;;
  if negb (status_code response =? 200) then
    raise Exception_ [Lit "Failed to list workspaces: "; FStr (text response)]
  else
    j <- response_json response ;;
    dict_get j "value" (VList []).

(** The [for ws in workspaces] loop of [get_workspace_id]; falling out of
    it is [return None]. *)
Fixpoint for_ws (workspaces : list value) (workspace_name : string)
  : M PowerBIAuth value :=
  match workspaces with
  | [] => ret VNone
  | ws :: rest =>
      n <- subscript ws "name" ;;
      ln <- str_lower n ;;
      if String.eqb ln (lower workspace_name) then subscript ws "id"
      else for_ws rest workspace_name
  end.

Definition get_workspace_id (workspace_name : string) : M PowerBIAuth value :=
  workspaces <- list_workspaces ;;
  items <- iterate workspaces ;;
  for_ws items workspace_name.

Definition imports_endpoint (workspace_id : value) (tail : fstring) : fstring :=
  if truthy workspace_id
  then ([Lit "/groups/"; FVal workspace_id; Lit "/imports"] ++ tail)%list
  else Lit "/imports" :: tail.

(** [file_size / (1024 * 1024)].  The quotient of an integer by 2^20 is
    taken in the rationals: the division is by a power of two and the
    rounding of true division is monotone and exact at 1024 and at
    1024 + 2^-20, so the comparison with 1024 below is the one the float
    makes. *)
Definition file_size_mb (file_size : Z) : Q :=
  (inject_Z file_size / inject_Z (1024 * 1024))%Q.

(** [q > 1024] *)
Definition over_1024 (q : Q) : bool := negb (Qle_bool q (inject_Z 1024)).

Definition not_in (x : Z) (l : list Z) : bool :=
  negb (existsb (Z.eqb x) l).

(** [_import_large_pbix] *)
Definition _import_large_pbix (pbix_path : Path) (dataset_name : string)
    (workspace_id : value) (name_conflict : string) : M PowerBIAuth value :=
  (* Step 1: create temporary upload location *)
  let endpoint :=
    imports_endpoint workspace_id [Lit "/createTemporaryUploadLocation"] in
  response <- _request POST endpoint [] NoBody ;;
  if negb (status_code response =? 200) then
    raise Exception_ [Lit "Failed to create upload location: ";
                      FStr (text response)]
  else
    j <- response_json response ;;
    upload_url <- subscript j "url" ;;
    (* Step 2: upload file to blob storage *)
    print [Lit "Uploading to temporary storage..."] ;;
    blob_response <-
      http server (mkRequest PUT [FVal upload_url]
                     [("x-ms-blob-type", [Lit "BlockBlob"]);
                      ("Content-Type", [Lit "application/octet-stream"])]
                     [] (FileData pbix_path) None) ;;
    if not_in (status_code blob_response) [200; 201] then
      raise Exception_ [Lit "Blob upload failed: "; FStr (text blob_response)]
    else
      (* Step 3: start import from blob *)
      let endpoint := imports_endpoint workspace_id [] in
      let params := [("datasetDisplayName", [FStr dataset_name]);
                     ("nameConflict", [FStr name_conflict])] in
      let body := JsonBody [("fileUrl", [FVal upload_url])] in
      response <- _request POST endpoint params body ;;
      if not_in (status_code response) [200; 201; 202] then
        raise Exception_ [Lit "Import from blob failed: "; FStr (text response)]
      else response_json response.

(** The standard upload request of [import_pbix], for files up to 1GB. *)
Definition upload_request (pbix_path : Path) (dataset_name : string)
    (workspace_id : value) (name_conflict : string) (skip_report : bool)
    (tok : value) : request :=
  let endpoint := imports_endpoint workspace_id [] in
  let params := [("datasetDisplayName", [FStr dataset_name]);
                 ("nameConflict", [FStr name_conflict]);
                 ("skipReport",
                  [Lit (if skip_report then "true" else "false")])] in
  mkRequest POST (Lit POWER_BI_API_BASE :: endpoint)
    [("Authorization", [Lit "Bearer "; FVal tok])]
    params
    (Files "file" (name pbix_path) pbix_path) None.

(** [import_pbix] *)
Definition import_pbix (pbix_path : Path) (dataset_name : string)
    (workspace_id : value) (name_conflict : string) (skip_report : bool)
  : M PowerBIAuth value :=
  match stat pbix_path with
  | None => raise FileNotFoundError [Lit "PBIX file not found: "; FPath pbix_path]
  | Some file_size =>
      if negb (String.eqb (lower (suffix pbix_path)) ".pbix") then
        raise ValueError [Lit "File must be a .pbix file"]
      else
        let mb := file_size_mb file_size in
        print [Lit "Uploading: "; FStr (name pbix_path); Lit " (";
               FFixed 1 mb; Lit " MB)"] ;;
        (* For files > 1GB, need to use temporary upload location *)
        if over_1024 mb then
          _import_large_pbix pbix_path dataset_name workspace_id name_conflict
        else
          tok <- get_token ;;
          response <-
            http server (upload_request pbix_path dataset_name workspace_id
                           name_conflict skip_report tok) ;;
          if not_in (status_code response) [200; 201; 202] then
            raise Exception_ [Lit "Import failed ("; FInt (status_code response);
                              Lit "): "; FStr (text response)]
          else
            import_info <- response_json response ;;
            i <- dict_get import_info "id" (VStr "unknown") ;;
            print [Lit "Import started: "; FVal i] ;;
            ret import_info
  end.

(** [get_import_status] *)
Definition get_import_status (import_id : string) (workspace_id : value)
  : M PowerBIAuth value :=
  let endpoint := imports_endpoint workspace_id [Lit "/"; FStr import_id] in
  response <- _request GET endpoint [] NoBody ;;
  if negb (status_code response =? 200) then
    raise Exception_ [Lit "Failed to get import status: "; FStr (text response)]
  else response_json response.

(** The [while] loop of [wait_for_import]; [fuel] bounds the number of
    times the loop test is evaluated. *)
Fixpoint wait_loop (fuel : nat) (import_id : string) (workspace_id : value)
    (start_time timeout poll_interval : Z) : M PowerBIAuth value :=
  match fuel with
  | O => diverge
  | S fuel' =>
      t <- time_time ;;
      if t - start_time <? timeout then
        status <- get_import_status import_id workspace_id ;;
        import_state <- dict_get status "importState" (VStr "Unknown") ;;
        print [Lit "  Import status: "; FVal import_state] ;;
        if eq_str import_state "Succeeded" then ret status
        else if eq_str import_state "Failed" then
          raise Exception_ [Lit "Import failed: "; FVal status]
        else
          time_sleep poll_interval ;;
          wait_loop fuel' import_id workspace_id start_time timeout poll_interval
      else
        raise TimeoutError [Lit "Import timed out after "; FInt timeout;
                            Lit " seconds"]
  end.

(** [wait_for_import]; [timeout] defaults to 300 and [poll_interval] to 5. *)
Definition wait_for_import (fuel : nat) (import_id : string)
    (workspace_id : value) (timeout poll_interval : Z) : M PowerBIAuth value :=
  start_time <- time_time ;;
  wait_loop fuel import_id workspace_id start_time timeout poll_interval.

Definition default_timeout : Z := 300.
Definition default_poll_interval : Z := 5.

(** [_headers] *)
Definition _headers : M PowerBIAuth (list (string * fstring)) :=
  tok <- get_token ;;
  ret [("Authorization", [Lit "Bearer "; FVal tok]);
       ("Content-Type", [Lit "application/json"])].

(** [list_reports] *)
Definition list_reports (workspace_id : value) : M PowerBIAuth value :=
  let endpoint :=
    if truthy workspace_id
    then [Lit "/groups/"; FVal workspace_id; Lit "/reports"]
    else [Lit "/reports"] in
  response <- _request GET endpoint [] NoBody ;;
  if negb (status_code response =? 200) then
    raise Exception_ [Lit "Failed to list reports: "; FStr (text response)]
  else
    j <- response_json response ;;
    dict_get j "value" (VList []).

(** [get_report] *)
Definition get_report (report_id : string) (workspace_id : value)
  : M PowerBIAuth value :=
  let endpoint :=
    if truthy workspace_id
    then [Lit "/groups/"; FVal workspace_id; Lit "/reports/"; FStr report_id]
    else [Lit "/reports/"; FStr report_id] in
  response <- _request GET endpoint [] NoBody ;;
  if negb (status_code response =? 200) then
    raise Exception_ [Lit "Failed to get report: "; FStr (text response)]
  else response_json response.

(** [delete_report] *)
Definition delete_report (report_id : string) (workspace_id : value)
  : M PowerBIAuth bool :=
  let endpoint :=
    if truthy workspace_id
    then [Lit "/groups/"; FVal workspace_id; Lit "/reports/"; FStr report_id]
    else [Lit "/reports/"; FStr report_id] in
  response <- _request DELETE endpoint [] NoBody ;;
  ret (status_code response =? 200).

(** [list_datasets] *)
Definition list_datasets (workspace_id : value) : M PowerBIAuth value :=
  let endpoint :=
    if truthy workspace_id
    then [Lit "/groups/"; FVal workspace_id; Lit "/datasets"]
    else [Lit "/datasets"] in
  response <- _request GET endpoint [] NoBody ;;
  if negb (status_code response =? 200) then
    raise Exception_ [Lit "Failed to list datasets: "; FStr (text response)]
  else
    j <- response_json response ;;
    dict_get j "value" (VList []).

(** [refresh_dataset] *)
Definition refresh_dataset (dataset_id : string) (workspace_id : value)
  : M PowerBIAuth bool :=
  let endpoint :=
    if truthy workspace_id
    then [Lit "/groups/"; FVal workspace_id; Lit "/datasets/"; FStr dataset_id;
          Lit "/refreshes"]
    else [Lit "/datasets/"; FStr dataset_id; Lit "/refreshes"] in
  response <- _request POST endpoint [] NoBody ;;
  ret (status_code response =? 202).

End Program.

End Publisher.

(* ===================================================================== *)
(** * publish_powerbi_report.py                                             *)
(* ===================================================================== *)

Module Report.

Definition POWER_BI_API_BASE : string := "https://api.powerbi.com/v1.0/myorg".

(** ** class PowerBIPublisher; nothing in it is assigned after [__init__]. *)

Record PowerBIPublisher : Type := mkPublisher
  { access_token : string;
    headers : list (string * fstring) }.

(** [__init__] *)
Definition init_publisher (token : string) : PowerBIPublisher :=
  mkPublisher token
    [("Authorization", [Lit "Bearer "; FStr token]);
     ("Content-Type", [Lit "application/json"])].

(** How one pass through a loop body ends. *)
Inductive flow (A : Type) : Type :=
| Return_ (a : A)
| Continue.
Arguments Return_ {A} a.
Arguments Continue {A}.

Definition max_retries : nat := 3.
Definition retry_delay : Z := 2.

Section Program.

Variable server : Server.
Variable stat : Path -> option Z.
Variable self : PowerBIPublisher.

Local Abbreviation Run := (M unit).

(** [int(response.headers.get('Retry-After', retry_delay * (attempt + 1)))] *)
Definition wait_time_of (r : response) (attempt : Z) : Run Z :=
  match headers_get "Retry-After" (resp_headers r) with
  | Some s => expect (int_of_str s) ValueError
                [Lit "invalid literal for int() with base 10: "; FStr s]
  | None => ret (retry_delay * (attempt + 1))
  end.

(** The [for attempt in range(max_retries)] loop of [_make_request]. *)
Fixpoint for_attempt (attempts : list Z) (rq : request) : Run response :=
  match attempts with
  | [] => raise Exception_ [Lit "Max retries exceeded"]
  | attempt :: rest =>
      f <- try_except
             (response <- http server rq ;;
              if status_code response =? 429 then   (* Rate limited *)
                wait_time <- wait_time_of response attempt ;;
                log WARNING [Lit "Rate limited. Waiting "; FInt wait_time;
                             Lit " seconds..."] ;;
                time_sleep wait_time ;;
                ret Continue
              else ret (Return_ response))
             RequestException
             (fun e =>
                if attempt =? Z.of_nat max_retries - 1 then reraise e
                else
                  log WARNING [Lit "Request failed (attempt "; FInt (attempt + 1);
                               Lit "/"; FInt (Z.of_nat max_retries); Lit "): ";
                               FExc (cls e)] ;;
                  time_sleep (retry_delay * (attempt + 1)) ;;
                  ret Continue) ;;
      match f with
      | Return_ response => ret response
      | Continue => for_attempt rest rq
      end
  end.

(** [_make_request] *)
Definition api_call (m : method) (endpoint : fstring) : request :=
  let url := Lit POWER_BI_API_BASE :: Lit "/" :: endpoint in
  mkRequest m url (headers self) [] NoBody None.

Definition _make_request (m : method) (endpoint : fstring) : Run response :=
  for_attempt (range max_retries) (api_call m endpoint).

(** The first loop of [get_workspace_id]: the case-insensitive match. *)
Fixpoint for_workspace (workspaces : list value) (workspace_name : string)
  : Run (flow value) :=
  match workspaces with
  | [] => ret Continue
  | workspace :: rest =>
      n <- subscript workspace "name" ;;
      ln <- str_lower n ;;
      if String.eqb ln (lower workspace_name) then
        workspace_id <- subscript workspace "id" ;;
        log INFO [Lit "Found workspace: "; FVal n; Lit " (ID: ";
                  FVal workspace_id; Lit ")"] ;;
        ret (Return_ workspace_id)
      else for_workspace rest workspace_name
  end.

(** The second loop: list the available workspaces. *)
Fixpoint for_available (workspaces : list value) : Run unit :=
  match workspaces with
  | [] => ret tt
  | workspace :: rest =>
      n <- subscript workspace "name" ;;
      i <- subscript workspace "id" ;;
      log WARNING [Lit "  - "; FVal n; Lit " (ID: "; FVal i; Lit ")"] ;;
      for_available rest
  end.

(** [get_workspace_id] *)
Definition get_workspace_id (workspace_name : string) : Run value :=
  log INFO [Lit "Searching for workspace: "; FStr workspace_name] ;;
  response <- _make_request GET [Lit "groups"] ;;
  if negb (status_code response =? 200) then
    raise Exception_ [Lit "Failed to retrieve workspaces: "; FStr (text response)]
  else
    j <- response_json response ;;
    workspaces <- dict_get j "value" (VList []) ;;
    items <- iterate workspaces ;;
    found <- for_workspace items workspace_name ;;
    match found with
    | Return_ workspace_id => ret workspace_id
    | Continue =>
        log WARNING [Lit "Available workspaces:"] ;;
        for_available items ;;
        raise ValueError [Lit "Workspace '"; FStr workspace_name;
                          Lit "' not found"]
    end.

(** The [while] loop of [_wait_for_import]. *)
Definition check_interval : Z := 5.

Fixpoint wait_loop (fuel : nat) (workspace_id : string) (import_id : value)
    (start_time timeout : Z) : Run value :=
  match fuel with
  | O => diverge
  | S fuel' =>
      t <- time_time ;;
      if t - start_time <? timeout then
        response <- _make_request GET [Lit "groups/"; FStr workspace_id;
                                       Lit "/imports/"; FVal import_id] ;;
        if negb (status_code response =? 200) then
          raise Exception_ [Lit "Failed to check import status: ";
                            FStr (text response)]
        else
          status <- response_json response ;;
          state <- dict_get status "importState" VNone ;;
          if eq_str state "Succeeded" then ret status
          else if eq_str state "Failed" then
            error <- dict_get status "error" (VDict []) ;;
            m <- dict_get error "message" (VStr "Unknown error") ;;
            raise Exception_ [Lit "Import failed: "; FVal m]
          else
            t' <- time_time ;;
            log INFO [Lit "Import status: "; FVal state; Lit "... (elapsed: ";
                      FInt (t' - start_time); Lit "s)"] ;;
            time_sleep check_interval ;;
            wait_loop fuel' workspace_id import_id start_time timeout
      else
        raise TimeoutError [Lit "Import timed out after "; FInt timeout;
                            Lit " seconds"]
  end.

(** [_wait_for_import]; [timeout] defaults to 600. *)
Definition _wait_for_import (fuel : nat) (workspace_id : string)
    (import_id : value) (timeout : Z) : Run value :=
  start_time <- time_time ;;
  wait_loop fuel workspace_id import_id start_time timeout.

Definition default_timeout : Z := 600.

Definition not_in (x : Z) (l : list Z) : bool :=
  negb (existsb (Z.eqb x) l).

(** [v[0].get(k)], reached only when [v] is truthy. *)
Definition first_get (v : value) (k : string) : Run value :=
  match v with
  | VList (x :: _) => dict_get x k VNone
  | VStr _ => raise AttributeError [Lit "get"]
  | VDict _ => raise KeyError [FInt 0]
  | _ => raise TypeError [Lit "not subscriptable"]
  end.

(** The branch of [publish_report] taken when the upload is refused. *)
Definition publish_failed (response : response) : Run value :=
  j <- response_json response ;;
  error <- dict_get j "error" (VDict []) ;;
  error_msg <- dict_get error "message" (VStr (text response)) ;;
  log ERROR [Lit "Upload failed: "; FVal error_msg] ;;
  (* Provide specific error guidance *)
  lowered <- str_lower error_msg ;;
  (if contains "capacity" lowered then
     log WARNING [Lit "Hint: Workspace may not have sufficient capacity"]
   else
     lowered <- str_lower error_msg ;;
     if contains "permission" lowered then
       log WARNING [Lit "Hint: Service principal may lack permissions. Required: Workspace Admin/Member"]
     else
       lowered <- str_lower error_msg ;;
       if contains "dataset" lowered then
         log WARNING [Lit "Hint: Dataset may have issues. Check data source configurations"]
       else ret tt) ;;
  raise Exception_ [Lit "Publish failed: "; FVal error_msg].

(** The end of [publish_report], once polling has returned [status]. *)
Definition import_outcome (workspace_id : string) (status : value) : Run value :=
  state <- dict_get status "importState" VNone ;;
  if eq_str state "Succeeded" then
    log INFO [Lit "Report published successfully!"] ;;
    reports <- dict_get status "reports" (VList []) ;;
    datasets <- dict_get status "datasets" (VList []) ;;
    (if truthy reports then
       report_id <- first_get reports "id" ;;
       log INFO [Lit "  Report ID: "; FVal report_id] ;;
       n <- first_get reports "name" ;;
       log INFO [Lit "  Report Name: "; FVal n] ;;
       log INFO [Lit "  Web URL: ";
                 Lit "https://app.powerbi.com/groups/";
                 FStr workspace_id; Lit "/reports/"; FVal report_id]
     else ret tt) ;;
    (if truthy datasets then
       d <- first_get datasets "id" ;;
       log INFO [Lit "  Dataset ID: "; FVal d]
     else ret tt) ;;
    ret status
  else
    error <- dict_get status "error" (VDict []) ;;
    m <- dict_get error "message" (VStr "Unknown error") ;;
    raise Exception_ [Lit "Import failed: "; FVal m].

(** The multipart upload request of [publish_report]. *)
Definition upload_request (pbix_path : Path) (workspace_id : string)
    (report_name : value) : request :=
  let endpoint :=
    [Lit "groups/"; FStr workspace_id;
     Lit "/imports?datasetDisplayName="; FVal report_name;
     Lit "&nameConflict=CreateOrOverwrite"] in
  let upload_headers :=
    [("Authorization", [Lit "Bearer "; FStr (access_token self)])] in
  mkRequest POST (Lit POWER_BI_API_BASE :: Lit "/" :: endpoint)
    upload_headers []
    (Files "file" (name pbix_path) pbix_path)
    (Some 600).       (* 10 minute timeout for large files *)

(** [publish_report]; [fuel] is handed to the polling loop. *)
Definition publish_report (fuel : nat) (pbix_path : Path)
    (workspace_id : string) (report_name : value) : Run value :=
  match stat pbix_path with
  | None => raise FileNotFoundError [Lit "File not found: "; FPath pbix_path]
  | Some file_size =>
      if negb (String.eqb (lower (suffix pbix_path)) ".pbix") then
        raise ValueError [Lit "File must be a .pbix file: "; FPath pbix_path]
      else
        (* Use filename as report name if not specified *)
        let report_name :=
          if truthy report_name then report_name else VStr (stem pbix_path) in
        let file_size_mb := (inject_Z file_size / inject_Z (1024 * 1024))%Q in
        log INFO [Lit "Publishing report..."] ;;
        log INFO [Lit "  File: "; FPath pbix_path] ;;
        log INFO [Lit "  Size: "; FFixed 2 file_size_mb; Lit " MB"] ;;
        log INFO [Lit "  Report Name: "; FVal report_name] ;;
        log INFO [Lit "  Workspace ID: "; FStr workspace_id] ;;
        log INFO [Lit "Uploading file... (this may take several minutes for large files)"] ;;
        response <-
          http server (upload_request pbix_path workspace_id report_name) ;;
        if not_in (status_code response) [200; 202] then
          publish_failed response
        else
          result <- response_json response ;;
          import_id <- dict_get result "id" VNone ;;
          (* Poll import status *)
          log INFO [Lit "Upload initiated (Import ID: "; FVal import_id; Lit ")"] ;;
          log INFO [Lit "Waiting for import to complete..."] ;;
          status <- _wait_for_import fuel workspace_id import_id default_timeout ;;
          import_outcome workspace_id status
  end.

End Program.

(** ** class PowerBIAuthenticator *)

Definition POWER_BI_SCOPE : list string :=
  ["https://analysis.windows.net/powerbi/api/.default"].

Record PowerBIAuthenticator : Type := mkAuthenticator
  { client_id : option string;       (* os.getenv('PBI_CLIENT_ID') *)
    client_secret : option string;   (* os.getenv('PBI_CLIENT_SECRET') *)
    tenant_id : option string;       (* os.getenv('PBI_TENANT_ID') *)
    token : value }.

(** The arguments of [ConfidentialClientApplication]. *)
Record msal_app : Type := mkApp
  { app_client_id : option string;
    app_client_credential : option string;
    app_authority : fstring }.

(** [not v] for what [os.getenv] returns. *)
Definition unset (v : option string) : bool :=
  match v with
  | Some s => String.eqb s ""
  | None => true
  end.

(** [{v}] for what [os.getenv] returns. *)
Definition env_value (v : option string) : value :=
  match v with
  | Some s => VStr s
  | None => VNone
  end.

Definition newline : string := String (ascii_of_nat 10) EmptyString.

Section Authentication.

(** [os.getenv] *)
Variable getenv : string -> option string.
(** [ConfidentialClientApplication(...).acquire_token_for_client(scopes)]:
    the library either raises or returns a dict.  Its own traffic is not
    part of the world. *)
Variable acquire_token_for_client :
  msal_app -> list string -> exn + list (string * value).

(** [_validate_credentials] *)
Definition _validate_credentials (self : PowerBIAuthenticator) : M unit unit :=
  let missing := [] in
  let missing :=
    if unset (client_id self) then (missing ++ ["PBI_CLIENT_ID"])%list
    else missing in
  let missing :=
    if unset (client_secret self) then (missing ++ ["PBI_CLIENT_SECRET"])%list
    else missing in
  let missing :=
    if unset (tenant_id self) then (missing ++ ["PBI_TENANT_ID"])%list
    else missing in
  match missing with
  | [] => ret tt
  | _ =>
      raise ValueError
        [Lit "Missing environment variables: ";
         FStr (String.concat ", " missing);
         Lit (newline ++ "Required for Service Principal authentication.")]
  end.

(** [__init__] *)
Definition init_authenticator : M unit PowerBIAuthenticator :=
  let self := mkAuthenticator (getenv "PBI_CLIENT_ID")
                (getenv "PBI_CLIENT_SECRET") (getenv "PBI_TENANT_ID") VNone in
  _validate_credentials self ;;
  ret self.

Definition set_token (v : value) : M PowerBIAuthenticator unit :=
  self <- get_heap ;;
  set_heap (mkAuthenticator (client_id self) (client_secret self)
              (tenant_id self) v).

(** [authenticate] *)
Definition authenticate : M PowerBIAuthenticator value :=
  log INFO [Lit "Authenticating with Azure AD..."] ;;
  try_except_any
    (self <- get_heap ;;
     let authority :=
       [Lit "https://login.microsoftonline.com/";
        FVal (env_value (tenant_id self))] in
     let app := mkApp (client_id self) (client_secret self) authority in
     match acquire_token_for_client app POWER_BI_SCOPE with
     | inl e => reraise e
     | inr result =>
         match assoc "access_token" result with
         | None =>
             let error_msg :=
               match assoc "error_description" result with
               | Some m => m
               | None =>
                   match assoc "error" result with
                   | Some m => m
                   | None => VStr "Unknown error"
                   end
               end in
             raise Exception_ [Lit "Authentication failed: "; FVal error_msg]
         | Some tok =>
             set_token tok ;;
             shown <- expect (option_map (substring 0 8) (client_id self))
                        TypeError [Lit "not subscriptable"] ;;
             log INFO [Lit "Authentication successful (Client ID: ";
                       FStr shown; Lit "...)"] ;;
             self' <- get_heap ;;
             ret (token self')
         end
     end)
    (fun e =>
       log ERROR (Lit "Authentication failed: " :: msg e) ;;
       reraise e).

End Authentication.

End Report.

(* ===================================================================== *)
(** * Vocabulary of the statements                                          *)
(* ===================================================================== *)

Section Vocabulary.

Context {H : Type}.

(** Time does not run backwards and no sent request is forgotten. *)
Definition advances (w w' : world H) : Prop :=
  now w <= now w' /\ (List.length (sent w) <= List.length (sent w'))%nat.

(** The ways a run ends other than by returning. *)
Inductive ending : Type :=
| Raised (c : exn_class)
| Diverged.

Definition ending_of {A} (o : outcome A) : option ending :=
  match o with
  | Returns _ => None
  | Raises e => Some (Raised (cls e))
  | Diverges => Some Diverged
  end.

(** [keeps P c]: from every world, [c] advances the world, and if it does
    not return, it ends in a way [P] allows. *)
Definition keeps {A} (P : ending -> Prop) (c : M H A) : Prop :=
  forall w,
    advances w (snd (c w)) /\
    forall x, ending_of (fst (c w)) = Some x -> P x.

(** [requests_or_returns c]: [c] does not end abnormally before it has
    sent a request. *)
Definition requests_or_returns {A} (c : M H A) : Prop :=
  forall w,
    advances w (snd (c w)) /\
    (ending_of (fst (c w)) <> None ->
     (List.length (sent w) < List.length (sent (snd (c w))))%nat).

(** [requests c]: every run of [c] sends at least one request. *)
Definition requests {A} (c : M H A) : Prop :=
  forall w,
    advances w (snd (c w)) /\
    (List.length (sent w) < List.length (sent (snd (c w))))%nat.

End Vocabulary.

(** [P] allows what talking to the service and reading its documents can
    raise. *)
Definition allows_service_errors (P : ending -> Prop) : Prop :=
  P (Raised Exception_) /\ P (Raised RequestException) /\
  P (Raised JSONDecodeError) /\ P (Raised KeyError) /\
  P (Raised TypeError) /\ P (Raised AttributeError).

Definition anything (x : ending) : Prop := True.
Definition not_file_not_found (x : ending) : Prop :=
  x <> Raised FileNotFoundError.
Definition not_a_validation_error (x : ending) : Prop :=
  x <> Raised FileNotFoundError /\ x <> Raised ValueError.
Definition terminates (x : ending) : Prop := x <> Diverged.
Definition no_timeout (x : ending) : Prop :=
  x <> Diverged /\ x <> Raised TimeoutError.

(** What a number in a decoded document counts for when added to a time. *)
Definition seconds_of (v : value) : option Z :=
  match v with
  | VInt n => Some n
  | VBool b => Some (if b then 1 else 0)
  | _ => None
  end.

(** The lifetime a token response grants: [expires_in], 3600 when absent. *)
Definition granted_lifetime (fields : list (string * value)) : value :=
  match assoc "expires_in" fields with
  | Some x => x
  | None => VInt 3600
  end.

(** The world with one more line of output. *)
Definition with_output {H} (e : event) (w : world H) : world H :=
  mkWorld (now w) (sent w) (slept w) (e :: output w) (heap w).

(** The world after sleeping [d] seconds. *)
Definition after_sleep {H} (d : Z) (w : world H) : world H :=
  mkWorld (now w + d) (sent w) (d :: slept w) (output w) (heap w).





(** The world after one HTTP exchange that took [took] seconds. *)
Definition after_http {H} (took : N) (rq : request) (w : world H) : world H :=
  mkWorld (now w + Z.of_N took) (rq :: sent w) (slept w) (output w) (heap w).




(** One GiB, in bytes. *)
Definition GiB : Z := 1024 * 1024 * 1024.

(** The line [import_pbix] prints before it uploads. *)
Definition uploading_line (p : Path) (file_size : Z) : event :=
  Printed [Lit "Uploading: "; FStr (name p); Lit " (";
           FFixed 1 (Publisher.file_size_mb file_size); Lit " MB)"].

(** The lines [publish_report] logs before it uploads. *)
Definition publishing_lines (p : Path) (file_size : Z) (workspace_id : string)
    (report_name : value) : list event :=
  [Logged INFO [Lit "Uploading file... (this may take several minutes for large files)"];
   Logged INFO [Lit "  Workspace ID: "; FStr workspace_id];
   Logged INFO [Lit "  Report Name: "; FVal report_name];
   Logged INFO [Lit "  Size: ";
                FFixed 2 (inject_Z file_size / inject_Z (1024 * 1024))%Q;
                Lit " MB"];
   Logged INFO [Lit "  File: "; FPath p];
   Logged INFO [Lit "Publishing report..."]].

(** The report name [publish_report] uses: the given one, else the stem of
    the file name. *)
Definition effective_name (p : Path) (report_name : value) : value :=
  if truthy report_name then report_name else VStr (stem p).

Definition with_outputs {H} (es : list event) (w : world H) : world H :=
  mkWorld (now w) (sent w) (slept w) (es ++ output w)%list (heap w).




(** The state a status document reports, [default] when it has none. *)
Definition state_of (fields : list (string * value)) (default : value) : value :=
  match assoc "importState" fields with
  | Some s => s
  | None => default
  end.

(** The message of the [error] entry of a failed import. *)
Definition failure_message (fields : list (string * value)) : option value :=
  match assoc "error" fields with
  | Some (VDict error) =>
      Some (match assoc "message" error with
            | Some m => m
            | None => VStr "Unknown error"
            end)
  | Some _ => None
  | None => Some (VStr "Unknown error")
  end.

Definition timed_out (timeout : Z) : exn :=
  mkExn TimeoutError
    [Lit "Import timed out after "; FInt timeout; Lit " seconds"].

(** A request as [PowerBIClient._request] sends it with token [tok]. *)
Definition client_request (m : method) (endpoint : fstring)
    (params : list (string * fstring)) (body : payload) (tok : value)
  : request :=
  mkRequest m (Lit Publisher.POWER_BI_API_BASE :: endpoint)
    [("Authorization", [Lit "Bearer "; FVal tok])] params body None.

(** The three requests of the staged upload. *)
Definition temporary_location_request (workspace_id tok : value) : request :=
  client_request POST
    (Publisher.imports_endpoint workspace_id
       [Lit "/createTemporaryUploadLocation"])
    [] NoBody tok.

Definition blob_upload_request (upload_url : value) (p : Path) : request :=
  mkRequest PUT [FVal upload_url]
    [("x-ms-blob-type", [Lit "BlockBlob"]);
     ("Content-Type", [Lit "application/octet-stream"])]
    [] (FileData p) None.

Definition import_from_blob_request (workspace_id : value)
    (dataset_name name_conflict : string) (upload_url tok : value) : request :=
  client_request POST (Publisher.imports_endpoint workspace_id [])
    [("datasetDisplayName", [FStr dataset_name]);
     ("nameConflict", [FStr name_conflict])]
    (JsonBody [("fileUrl", [FVal upload_url])]) tok.

(** The seconds slept so far. *)
Definition total_slept {H} (w : world H) : Z := fold_right Z.add 0 (slept w).

(** [c] neither sleeps nor touches what was slept. *)
Definition never_sleeps {H A} (c : M H A) : Prop :=
  forall w, slept (snd (c w)) = slept w.

(** An entry of a [reports] or [datasets] list that [publish_report] can
    log: the list is empty or begins with an object. *)
Definition loggable (v : value) : Prop :=
  v = VList [] \/ exists fields rest, v = VList (VDict fields :: rest).

(** The line [_make_request] logs when an attempt fails below HTTP. *)
Definition request_failed_line (attempt : Z) : event :=
  Logged WARNING [Lit "Request failed (attempt "; FInt (attempt + 1);
                  Lit "/"; FInt (Z.of_nat Report.max_retries); Lit "): ";
                  FExc RequestException].

(** The service is out of reach. *)
Definition unreachable (server : Server) : Prop :=
  forall history, exists took, server history = NetworkFailure took.

(** No response of the service carries a [Retry-After] header. *)
Definition never_says_when (server : Server) : Prop :=
  forall history took r,
    server history = Responds took r ->
    headers_get "Retry-After" (resp_headers r) = None.

(** An entry of a status document, the empty list when it is absent. *)
Definition listed (key : string) (fields : list (string * value)) : value :=
  match assoc key fields with
  | Some v => v
  | None => VList []
  end.

(** The reason a token refusal of the identity library is reported with:
    its [error_description], else its [error], else a fixed text. *)
Definition refusal_reason (result : list (string * value)) : value :=
  match assoc "error_description" result with
  | Some description => description
  | None =>
      match assoc "error" result with
      | Some code => code
      | None => VStr "Unknown error"
      end
  end.

(** The three variables the authenticator reads, in the order it checks
    them. *)
Definition credential_variables : list string :=
  ["PBI_CLIENT_ID"; "PBI_CLIENT_SECRET"; "PBI_TENANT_ID"].

(** The application the authenticator hands to the identity library. *)
Definition application_of (self : Report.PowerBIAuthenticator) : Report.msal_app :=
  Report.mkApp (Report.client_id self) (Report.client_secret self)
    [Lit "https://login.microsoftonline.com/";
     FVal (Report.env_value (Report.tenant_id self))].

Definition with_token (tok : value) (self : Report.PowerBIAuthenticator)
  : Report.PowerBIAuthenticator :=
  Report.mkAuthenticator (Report.client_id self) (Report.client_secret self)
    (Report.tenant_id self) tok.

(** The run does not end in a plain [Exception], the class of the errors
    the scripts raise themselves. *)
Definition not_raised_by_the_script {A} (o : outcome A) : Prop :=
  ending_of o <> Some (Raised Exception_).

(* ===================================================================== *)
(** * Concrete runs                                                         *)
(* ===================================================================== *)

Module Scenario.

(** The JSON text of a decoded document, and a response that carries it. *)
Definition quote : string := String (ascii_of_nat 34) EmptyString.

Fixpoint render (v : value) : string :=
  match v with
  | VNone => "null"
  | VBool b => if b then "true" else "false"
  | VInt n => NilZero.string_of_int (Z.to_int n)
  | VStr s => quote ++ s ++ quote
  | VList items =>
      "[" ++ (fix elements (l : list value) : string :=
                match l with
                | [] => ""
                | x :: [] => render x
                | x :: r => render x ++ ", " ++ elements r
                end) items ++ "]"
  | VDict fields =>
      "{" ++ (fix members (l : list (string * value)) : string :=
                match l with
                | [] => ""
                | (k, x) :: [] => quote ++ k ++ quote ++ ": " ++ render x
                | (k, x) :: r =>
                    quote ++ k ++ quote ++ ": " ++ render x ++ ", " ++ members r
                end) fields ++ "}"
  end.

Definition json_response (status : Z) (document : value) : response :=
  mkResponse status [("Content-Type", "application/json")] (render document)
    (Some document).

(** A fresh authenticator at time 1000, nothing sent yet. *)
Definition world0 : world Publisher.PowerBIAuth :=
  mkWorld 1000 [] [] [] (Publisher.init_auth "tenant" "client" "secret").

(** The same authenticator holding a token that expires at [expiry]. *)
Definition world_cached (expiry : Z) : world Publisher.PowerBIAuth :=
  mkWorld 1000 [] [] []
    (Publisher.mkAuth "tenant" "client" "secret" (VStr "cached") expiry).

Definition token_response (lifetime : Z) : response :=
  json_response 200
    (VDict [("token_type", VStr "Bearer");
            ("expires_in", VInt lifetime);
            ("access_token", VStr "tok")]).

(** An identity provider that answers every request after two seconds with
    a token of the given lifetime. *)
Definition azure_grants (lifetime : Z) : Server :=
  fun _ => Responds 2 (token_response lifetime).

Definition workspace (i n : string) : value :=
  VDict [("id", VStr i); ("isReadOnly", VBool false); ("name", VStr n)].

Definition listing : list value :=
  [workspace "id-1" "Marketing"; workspace "id-2" "Sales";
   workspace "id-3" "SALES"].

Definition groups_response : response :=
  json_response 200 (VDict [("value", VList listing)]).


(** The state of a run of [publish_powerbi_report.py] at time 1000. *)
Definition report_world0 : world unit := mkWorld 1000 [] [] [] tt.

Definition publisher0 : Report.PowerBIPublisher := Report.init_publisher "tok".

Definition too_many_requests (retry_after : option string) : response :=
  mkResponse 429
    (match retry_after with
     | Some s => [("Content-Type", "application/json"); ("retry-after", s)]
     | None => [("Content-Type", "application/json")]
     end)
    "" None.


(** A service that refuses every request with 403. *)
Definition forbidden : response :=
  json_response 403
    (VDict [("error", VDict [("code", VStr "Forbidden");
                             ("message", VStr "No permission")])]).

Definition always_forbidden : Server := fun _ => Responds 1 forbidden.

Definition pbix (file : string) (stem_ : string) (suffix_ : string) : Path :=
  mkPath file file stem_ suffix_.

(** A disk with a 50 MiB report, a report of exactly 1 GiB, one a byte
    larger, and a text file. *)
Definition disk : Path -> option Z :=
  fun p =>
    if String.eqb (path_text p) "report.pbix" then Some (50 * 1024 * 1024)
    else if String.eqb (path_text p) "Exact.PBIX" then Some GiB
    else if String.eqb (path_text p) "big.pbix" then Some (GiB + 1)
    else if String.eqb (path_text p) "notes.txt" then Some 12
    else None.

Definition import_accepted (status : Z) : response :=
  json_response status (VDict [("id", VStr "imp-1")]).


Definition report_file : Path := pbix "report.pbix" "report" ".pbix".
Definition big_file : Path := pbix "big.pbix" "big" ".pbix".

Definition status_document (state : string) : response :=
  json_response 200
    (VDict [("id", VStr "imp-1"); ("importState", VStr state)]).


(** Tokens are granted at once; every status request takes 700 seconds to
    report the import as still publishing. *)
Definition slow_status : Server :=
  fun history =>
    match history with
    | rq :: _ =>
        match body rq with
        | FormData _ => Responds 0 (token_response 3600)
        | _ => Responds 700 (status_document "Publishing")
        end
    | [] => NetworkFailure 0
    end.

(** The import succeeds at the second status request. *)
Definition succeeds_on_second_poll : Server :=
  fun history =>
    match history with
    | rq :: _ =>
        match body rq with
        | FormData _ => Responds 0 (token_response 3600)
        | _ =>
            if (List.length history <=? 2)%nat
            then Responds 1 (status_document "Publishing")
            else Responds 1 (status_document "Succeeded")
        end
    | [] => NetworkFailure 0
    end.

Definition upload_location (status : Z) : response :=
  json_response status (VDict [("url", VStr "https://blob/upload")]).
Definition blob_answer (status : Z) : response := mkResponse status [] "" None.
Definition import_started (status : Z) : response :=
  json_response status (VDict [("id", VStr "imp-9")]).

(** A service for the staged upload: it grants tokens, answers the request
    for a temporary location with status [s1] and a URL, the blob upload
    with status [s2] and the import request with status [s3]. *)
Definition staged_service (s1 s2 s3 : Z) : Server :=
  fun history =>
    match history with
    | rq :: _ =>
        match meth rq, body rq with
        | POST, FormData _ => Responds 0 (token_response 3600)
        | POST, NoBody => Responds 1 (upload_location s1)
        | PUT, _ => Responds 60 (blob_answer s2)
        | _, _ => Responds 1 (import_started s3)
        end
    | [] => NetworkFailure 0
    end.

(** The authenticator of [world0] after the token exchange with a service
    that answers at once. *)
Definition world_authenticated : world Publisher.PowerBIAuth :=
  mkWorld 1000 [Publisher.token_request (heap world0)] [] []
    (Publisher.mkAuth "tenant" "client" "secret" (VStr "tok") 4600).

(** A service whose caller already holds a token and that knows nothing of
    the import asked for: every request is answered with 404 after one
    second, except a token request, which is granted at once. *)
Definition not_found : response :=
  json_response 404
    (VDict [("error", VDict [("code", VStr "ImportNotFound")])]).

Definition import_unknown : Server :=
  fun history =>
    match history with
    | rq :: _ =>
        match body rq with
        | FormData _ => Responds 0 (token_response 3600)
        | _ => Responds 1 not_found
        end
    | [] => NetworkFailure 0
    end.

(** A service out of reach: every exchange fails after thirty seconds. *)
Definition out_of_reach : Server := fun _ => NetworkFailure 30.

(** An identity provider that answers 200 with an error document. *)
Definition azure_refuses : Server :=
  fun _ => Responds 1 (json_response 200 (VDict [("error", VStr "invalid_client")])).

(** A service that answers every request with an empty object. *)
Definition empty_object : response := json_response 200 (VDict []).
Definition answers_empty : Server := fun _ => Responds 1 empty_object.



(** The first exchange fails below HTTP, the later ones list the
    workspaces. *)
Definition flaky : Server :=
  fun history =>
    match history with
    | [_] => NetworkFailure 3
    | _ => Responds 1 groups_response
    end.


(** A busy service that does not say when to come back. *)
Definition busy : Server := fun _ => Responds 0 (too_many_requests None).

(** The upload is accepted after thirty seconds, and the import is done by
    the time its status is asked for. *)
Definition published : list (string * value) :=
  [("id", VStr "imp-1"); ("importState", VStr "Succeeded");
   ("reports", VList [VDict [("id", VStr "rep-1"); ("name", VStr "report")]]);
   ("datasets", VList [VDict [("id", VStr "ds-1")]])].

Definition publishes_at_once : Server :=
  fun history =>
    match history with
    | [_] => Responds 30 (import_accepted 202)
    | _ => Responds 1 (json_response 200 (VDict published))
    end.

(** An authenticator of [publish_powerbi_report.py] before its first
    token, and three behaviours of the identity library. *)
Definition authenticator0 : world Report.PowerBIAuthenticator :=
  mkWorld 1000 [] [] []
    (Report.mkAuthenticator (Some "0123456789abcdef") (Some "secret")
       (Some "tenant") VNone).

Definition library_grants
  : Report.msal_app -> list string -> exn + list (string * value) :=
  fun _ _ => inr [("token_type", VStr "Bearer"); ("expires_in", VInt 3599);
                  ("access_token", VStr "tok")].

Definition library_refuses
  : Report.msal_app -> list string -> exn + list (string * value) :=
  fun _ _ => inr [("error", VStr "invalid_client");
                  ("error_description", VStr "AADSTS7000215: invalid secret")].

Definition library_raises
  : Report.msal_app -> list string -> exn + list (string * value) :=
  fun _ _ => inl (mkExn ValueError [Lit "Unable to get authority configuration"]).

(** The import succeeds at the second status request, and its document
    lists the identifiers of the reports instead of the reports. *)
Definition bare_identifiers : Server :=
  fun history =>
    match history with
    | [_] => Responds 1 (status_document "Publishing")
    | _ =>
        Responds 1
          (json_response 200
             (VDict [("importState", VStr "Succeeded");
                     ("reports", VList [VStr "rep-1"])]))
    end.

(** A gateway in front of the service that answers with a page. *)
Definition bad_gateway : response :=
  mkResponse 502 [("Content-Type", "text/html")]
    "<html><body>502 Bad Gateway</body></html>" None.
Definition behind_gateway : Server := fun _ => Responds 5 bad_gateway.

(** A refusal whose [error] is a string. *)
Definition terse_refusal : response :=
  json_response 403 (VDict [("error", VStr "Forbidden")]).
Definition refuses_tersely : Server := fun _ => Responds 1 terse_refusal.

End Scenario.

(* ===================================================================== *)
(** * Reasoning about runs                                                  *)
(* ===================================================================== *)

Section Logic.

Context {H : Type}.
Implicit Types (w : world H) (P : ending -> Prop).

Lemma advances_refl w : advances w w.
Proof. split; [lia | apply Nat.le_refl]. Qed.

Lemma advances_trans w1 w2 w3 :
  advances w1 w2 -> advances w2 w3 -> advances w1 w3.
Proof. intros [a b] [c d]. split; [lia | eapply Nat.le_trans; eauto]. Qed.

Lemma keeps_ret {A} P (a : A) : keeps (H:=H) P (ret a).
Proof. intros w. split; [apply advances_refl | discriminate]. Qed.

Lemma keeps_raise {A} P c m : P (Raised c) -> keeps (H:=H) (A:=A) P (raise c m).
Proof.
  intros HP w. split; [apply advances_refl |].
  cbn. intros x [= <-]. exact HP.
Qed.

Lemma keeps_reraise {A} P e :
  P (Raised (cls e)) -> keeps (H:=H) (A:=A) P (reraise e).
Proof.
  intros HP w. split; [apply advances_refl |].
  cbn. intros x [= <-]. exact HP.
Qed.

Lemma keeps_diverge {A} P : P Diverged -> keeps (H:=H) (A:=A) P diverge.
Proof.
  intros HP w. split; [apply advances_refl |].
  cbn. intros x [= <-]. exact HP.
Qed.

Lemma keeps_bind {A B} P (c : M H A) (k : A -> M H B) :
  keeps P c -> (forall a, keeps P (k a)) -> keeps P (bind c k).
Proof.
  intros Hc Hk w. unfold bind.
  destruct (Hc w) as [Hadv Hend].
  destruct (c w) as [[a | e | ] w1]; cbn in *.
  - destruct (Hk a w1) as [Hadv' Hend']. split; [| exact Hend'].
    eapply advances_trans; eauto.
  - split; [exact Hadv | exact Hend].
  - split; [exact Hadv | exact Hend].
Qed.




Lemma keeps_expect {A} P (o : option A) c m :
  P (Raised c) -> keeps (H:=H) P (expect o c m).
Proof.
  intros HP. destruct o; [apply keeps_ret | apply keeps_raise; exact HP].
Qed.

Lemma keeps_get_heap P : keeps (H:=H) P get_heap.
Proof. intros w. split; [apply advances_refl | discriminate]. Qed.

Lemma keeps_set_heap P h : keeps (H:=H) P (set_heap h).
Proof.
  intros w. split; [| discriminate]. split; cbn; [lia | apply Nat.le_refl].
Qed.

Lemma keeps_time_time P : keeps (H:=H) P time_time.
Proof. intros w. split; [apply advances_refl | discriminate]. Qed.

Lemma keeps_time_sleep P d :
  P (Raised ValueError) -> keeps (H:=H) P (time_sleep d).
Proof.
  intros HP w. unfold time_sleep.
  destruct (Z.ltb_spec d 0); cbn.
  - split; [apply advances_refl |]. intros x [= <-]. exact HP.
  - split; [| discriminate]. split; cbn; [lia | apply Nat.le_refl].
Qed.

Lemma keeps_emit P e : keeps (H:=H) P (emit e).
Proof.
  intros w. split; [| discriminate]. split; cbn; [lia | apply Nat.le_refl].
Qed.

Lemma keeps_print P l : keeps (H:=H) P (print l).
Proof. apply keeps_emit. Qed.

Lemma keeps_log P lvl l : keeps (H:=H) P (log lvl l).
Proof. apply keeps_emit. Qed.

Lemma keeps_http P server rq :
  P (Raised RequestException) -> keeps (H:=H) P (http server rq).
Proof.
  intros HP w. unfold http. cbn. split.
  - split; cbn; [lia | apply Nat.le_succ_diag_r].
  - destruct (server (rq :: sent w)); cbn; [| discriminate].
    intros x [= <-]. exact HP.
Qed.

Lemma keeps_response_json P r :
  P (Raised JSONDecodeError) -> keeps (H:=H) P (response_json r).
Proof. intros HP. apply keeps_expect. exact HP. Qed.

Lemma keeps_subscript P v k :
  P (Raised KeyError) -> P (Raised TypeError) -> keeps (H:=H) P (subscript v k).
Proof.
  intros H1 H2. destruct v; cbn;
    try (apply keeps_raise; exact H2).
  apply keeps_expect. exact H1.
Qed.

Lemma keeps_dict_get P v k d :
  P (Raised AttributeError) -> keeps (H:=H) P (dict_get v k d).
Proof.
  intros H1. destruct v; cbn;
    try (apply keeps_raise; exact H1).
  apply keeps_ret.
Qed.

Lemma keeps_str_lower P v :
  P (Raised AttributeError) -> keeps (H:=H) P (str_lower v).
Proof.
  intros H1. destruct v; cbn;
    try (apply keeps_raise; exact H1).
  apply keeps_ret.
Qed.

Lemma keeps_iterate P v :
  P (Raised TypeError) -> keeps (H:=H) P (iterate v).
Proof.
  intros H1. destruct v; cbn;
    try (apply keeps_raise; exact H1); apply keeps_ret.
Qed.

Lemma keeps_add_number P t v :
  P (Raised TypeError) -> keeps (H:=H) P (add_number t v).
Proof.
  intros H1. destruct v; cbn;
    try (apply keeps_raise; exact H1); apply keeps_ret.
Qed.

(** ** Running a bind once its first part is known. *)

Lemma bind_returns {A B} (c : M H A) (k : A -> M H B) w a w1 :
  c w = (Returns a, w1) -> bind c k w = k a w1.
Proof. intros E. unfold bind. rewrite E. reflexivity. Qed.

Lemma bind_raises {A B} (c : M H A) (k : A -> M H B) w e w1 :
  c w = (Raises e, w1) -> bind c k w = (Raises e, w1).
Proof. intros E. unfold bind. rewrite E. reflexivity. Qed.

Lemma bind_diverges {A B} (c : M H A) (k : A -> M H B) w w1 :
  c w = (Diverges, w1) -> bind c k w = (Diverges, w1).
Proof. intros E. unfold bind. rewrite E. reflexivity. Qed.

Lemma log_run lvl line w :
  log lvl line w = (Returns tt, with_output (Logged lvl line) w).
Proof. reflexivity. Qed.

Lemma print_run line w :
  print line w = (Returns tt, with_output (Printed line) w).
Proof. reflexivity. Qed.

Lemma time_time_run w : time_time w = (Returns (now w), w).
Proof. reflexivity. Qed.

Lemma time_sleep_run d w :
  0 <= d -> time_sleep d w = (Returns tt, after_sleep d w).
Proof.
  intros Hd. unfold time_sleep.
  destruct (Z.ltb_spec d 0); [lia | reflexivity].
Qed.

Lemma response_json_run r j w :
  json r = Some j -> response_json r w = (Returns j, w).
Proof. intros E. unfold response_json. rewrite E. reflexivity. Qed.

Lemma dict_get_run fields k d w :
  dict_get (VDict fields) k d w =
    (Returns (match assoc k fields with Some x => x | None => d end), w).
Proof. reflexivity. Qed.

Lemma http_responds server rq w took r :
  server (rq :: sent w) = Responds took r ->
  http server rq w = (Returns r, after_http took rq w).
Proof. intros E. unfold http, after_http. rewrite E. reflexivity. Qed.

Lemma http_fails server rq w took :
  server (rq :: sent w) = NetworkFailure took ->
  http server rq w =
    (Raises (mkExn RequestException []), after_http took rq w).
Proof. intros E. unfold http, after_http. rewrite E. reflexivity. Qed.

(** ** Runs that reach the network. *)




Lemma returns_emit e : requests_or_returns (H:=H) (emit e).
Proof.
  intros w. split; [| intros Hne; exfalso; apply Hne; reflexivity].
  split; cbn; lia.
Qed.

Lemma requests_requests_or_returns {A} (c : M H A) :
  requests c -> requests_or_returns c.
Proof. intros Hc w. destruct (Hc w). split; auto. Qed.

End Logic.

(** Side conditions on the allowed endings. *)
Ltac ending :=
  solve [ assumption
        | exact I
        | unfold no_timeout, terminates, anything, not_file_not_found,
            not_a_validation_error, allows_service_errors;
          repeat split; discriminate
        | unfold no_timeout, terminates, anything, not_file_not_found,
            not_a_validation_error, allows_service_errors in *;
          intuition congruence ].

(** Decompose a run along its binds and branches. *)
Ltac keeps_tac :=
  repeat first
    [ apply keeps_ret
    | apply keeps_raise; ending
    | apply keeps_reraise; ending
    | apply keeps_bind; [| intros ?]
    | apply keeps_get_heap
    | apply keeps_set_heap
    | apply keeps_time_time
    | apply keeps_time_sleep; ending
    | apply keeps_print
    | apply keeps_log
    | apply keeps_http; ending
    | apply keeps_response_json; ending
    | apply keeps_subscript; ending
    | apply keeps_dict_get; ending
    | apply keeps_str_lower; ending
    | apply keeps_iterate; ending
    | apply keeps_add_number; ending
    | apply keeps_expect; ending
    | match goal with
      | |- keeps _ (if ?b then _ else _) => destruct b
      | |- keeps _ (match ?x with _ => _ end) => destruct x
      end ].

(** Unfold a run step by step: case analysis on whatever the next step
    scrutinises. *)
Ltac break_match :=
  match goal with
  | |- context [match ?x with _ => _ end] =>
      lazymatch x with
      | context [match _ with _ => _ end] => fail
      | _ => destruct x eqn:?
      end
  end.

Ltac run := repeat (cbn in *; try reflexivity; try discriminate; break_match).

(* ===================================================================== *)
(** * The token cache of [PowerBIAuth]                                      *)
(* ===================================================================== *)

Section TokenCache.

Import Publisher.

Variable server : Server.


Lemma stale_test (w : world PowerBIAuth) :
  truthy (access_token (heap w)) = false \/ token_expiry (heap w) - 60 <= now w ->
  (if truthy (access_token (heap w))
   then (now w <? token_expiry (heap w) - 60) else false) = false.
Proof.
  intros [-> | Hexp]; [reflexivity |].
  destruct (truthy _); [apply Z.ltb_ge; exact Hexp | reflexivity].
Qed.

Lemma get_token_fresh_sent (w : world PowerBIAuth) :
  truthy (access_token (heap w)) = false \/ token_expiry (heap w) - 60 <= now w ->
  sent (snd (get_token server w)) = token_request (heap w) :: sent w.
Proof.
  intros Hstale. apply stale_test in Hstale.
  unfold get_token, bind, get_heap, time_time, ret, http, response_json,
    subscript, dict_get, add_number, expect, raise, set_access_token,
    set_token_expiry, set_heap, get_heap, bind.
  cbn.
  destruct (truthy (access_token (heap w))); cbn in *; rewrite ?Hstale; run.
Qed.

Lemma get_token_keeps P :
  allows_service_errors P -> keeps P (get_token server).
Proof.
  intros (? & ? & ? & ? & ? & ?).
  unfold get_token, set_access_token, set_token_expiry. keeps_tac.
Qed.


Lemma get_token_cached (w : world PowerBIAuth) :
  truthy (access_token (heap w)) = true ->
  now w < token_expiry (heap w) - 60 ->
  get_token server w = (Returns (access_token (heap w)), w).
Proof.
  intros Htok Hexp. apply Z.ltb_lt in Hexp.
  unfold get_token, bind, get_heap, time_time, ret. cbn.
  rewrite Htok. cbn. rewrite Hexp. reflexivity.
Qed.

Lemma get_token_fresh (w : world PowerBIAuth) took r fields tok n :
  truthy (access_token (heap w)) = false \/ token_expiry (heap w) - 60 <= now w ->
  server (token_request (heap w) :: sent w) = Responds took r ->
  status_code r = 200 ->
  json r = Some (VDict fields) ->
  assoc "access_token" fields = Some tok ->
  seconds_of (granted_lifetime fields) = Some n ->
  get_token server w =
    (Returns tok,
     mkWorld (now w + Z.of_N took) (token_request (heap w) :: sent w)
             (slept w) (output w)
             (mkAuth (tenant_id (heap w)) (client_id (heap w))
                     (client_secret (heap w)) tok (now w + Z.of_N took + n))).
Proof.
  intros Hstale Hrep Hst Hj Htok Hn. apply stale_test in Hstale.
  unfold get_token, bind, get_heap, time_time, ret, http. cbn.
  destruct (truthy (access_token (heap w))); cbn in *; rewrite ?Hstale; cbn;
    rewrite Hrep; cbn; rewrite Hst; cbn;
    unfold response_json; rewrite Hj; cbn; rewrite Htok; cbn;
    unfold granted_lifetime in Hn;
    (destruct (assoc "expires_in" fields) as [v |]; cbn in *;
     [ destruct v; try discriminate; cbn in *; injection Hn as <-; reflexivity
     | injection Hn as <-; reflexivity ]).
Qed.

(** C6.  [get_token] memoizes the bearer token.  With a cached token whose
    expiry is more than 60 seconds ahead it returns that token and leaves
    the world as it was: no request is sent.  With no cached token, or one
    that expires within 60 seconds or has expired, it sends exactly one
    request, the token exchange, and when that is answered with a token it
    caches the token with expiry = the time of caching + the granted
    lifetime. *)
Theorem get_token_memoizes (w : world PowerBIAuth) :
  (truthy (access_token (heap w)) = true ->
   now w < token_expiry (heap w) - 60 ->
   get_token server w = (Returns (access_token (heap w)), w))
  /\
  (truthy (access_token (heap w)) = false \/
   token_expiry (heap w) - 60 <= now w ->
   sent (snd (get_token server w)) = token_request (heap w) :: sent w /\
   forall took r fields tok n,
     server (token_request (heap w) :: sent w) = Responds took r ->
     status_code r = 200 ->
     json r = Some (VDict fields) ->
     assoc "access_token" fields = Some tok ->
     seconds_of (granted_lifetime fields) = Some n ->
     get_token server w =
       (Returns tok,
        mkWorld (now w + Z.of_N took) (token_request (heap w) :: sent w)
                (slept w) (output w)
                (mkAuth (tenant_id (heap w)) (client_id (heap w))
                        (client_secret (heap w)) tok
                        (now w + Z.of_N took + n)))).
Proof.
  split.
  - apply get_token_cached.
  - intros Hstale. split.
    + apply get_token_fresh_sent. exact Hstale.
    + intros. eapply get_token_fresh; eauto.
Qed.

(** Every way [get_token] can return. *)
Lemma get_token_returns (w w' : world PowerBIAuth) tok :
  get_token server w = (Returns tok, w') ->
  (truthy (access_token (heap w)) = true /\
   now w < token_expiry (heap w) - 60 /\ w' = w /\ tok = access_token (heap w))
  \/
  (exists took r fields n,
      server (token_request (heap w) :: sent w) = Responds took r /\
      json r = Some (VDict fields) /\
      assoc "access_token" fields = Some tok /\
      seconds_of (granted_lifetime fields) = Some n /\
      w' = mkWorld (now w + Z.of_N took) (token_request (heap w) :: sent w)
             (slept w) (output w)
             (mkAuth (tenant_id (heap w)) (client_id (heap w))
                     (client_secret (heap w)) tok (now w + Z.of_N took + n))).
Proof.
  unfold get_token, bind, get_heap, time_time, ret, http. cbn.
  destruct (truthy (access_token (heap w))) eqn:Htok; cbn.
  - destruct (Z.ltb_spec (now w) (token_expiry (heap w) - 60)); cbn.
    + intros [= <- <-]. left. auto.
    + intros Hrun. right. revert Hrun.
      destruct (server (token_request (heap w) :: sent w)) as [t | t r] eqn:Hrep;
        cbn; [discriminate |].
      destruct (status_code r =? 200); cbn; [| discriminate].
      unfold response_json. destruct (json r) as [j |] eqn:Hj; cbn; [| discriminate].
      destruct j; cbn; try discriminate.
      destruct (assoc "access_token" fields) as [tk |] eqn:Hk; cbn; [| discriminate].
      unfold granted_lifetime.
      destruct (assoc "expires_in" fields) as [v |] eqn:Hv; cbn.
      * destruct v; cbn; try discriminate; intros [= <- <-];
          exists t, r, fields; eexists; unfold granted_lifetime; rewrite Hv;
          repeat split; first [eassumption | reflexivity].
      * intros [= <- <-]. exists t, r, fields, 3600.
        unfold granted_lifetime; rewrite Hv. repeat split; first [eassumption | reflexivity].
  - intros Hrun. right. revert Hrun.
    destruct (server (token_request (heap w) :: sent w)) as [t | t r] eqn:Hrep;
      cbn; [discriminate |].
    destruct (status_code r =? 200); cbn; [| discriminate].
    unfold response_json. destruct (json r) as [j |] eqn:Hj; cbn; [| discriminate].
    destruct j; cbn; try discriminate.
    destruct (assoc "access_token" fields) as [tk |] eqn:Hk; cbn; [| discriminate].
    unfold granted_lifetime.
    destruct (assoc "expires_in" fields) as [v |] eqn:Hv; cbn.
    * destruct v; cbn; try discriminate; intros [= <- <-];
        exists t, r, fields; eexists; unfold granted_lifetime; rewrite Hv;
        repeat split; first [eassumption | reflexivity].
    * intros [= <- <-]. exists t, r, fields, 3600.
      unfold granted_lifetime; rewrite Hv. repeat split; first [eassumption | reflexivity].
Qed.

(** C7, as the code has it.  A token handed out from the cache has more
    than 60 seconds left.  Otherwise a fresh token is fetched with one
    request and handed out with exactly the lifetime the identity provider
    granted; the code does not look at how long that is. *)
Theorem returned_token_validity (w w' : world PowerBIAuth) tok :
  get_token server w = (Returns tok, w') ->
  tok = access_token (heap w') /\
  ((w' = w /\ 60 < token_expiry (heap w') - now w')
   \/
   (exists took r fields n,
       server (token_request (heap w) :: sent w) = Responds took r /\
       json r = Some (VDict fields) /\
       seconds_of (granted_lifetime fields) = Some n /\
       sent w' = token_request (heap w) :: sent w /\
       token_expiry (heap w') - now w' = n)).
Proof.
  intros Hrun. apply get_token_returns in Hrun.
  destruct Hrun as [(Htok & Hexp & -> & ->) | (took & r & fields & n & Hrep & Hj & Hk & Hn & ->)].
  - split; [reflexivity |]. left. split; [reflexivity | lia].
  - split; [reflexivity |]. right. exists took, r, fields, n. cbn.
    repeat split; auto. lia.
Qed.

End TokenCache.

(** At time 1000 a token cached until 2000 is returned without a request;
    one cached until 1060 is replaced by one exchange. *)
Lemma get_token_memoizes_witness :
  Publisher.get_token (Scenario.azure_grants 3599) (Scenario.world_cached 2000)
    = (Returns (VStr "cached"), Scenario.world_cached 2000)
  /\
  Publisher.get_token (Scenario.azure_grants 3599) (Scenario.world_cached 1060)
    = (Returns (VStr "tok"),
       mkWorld 1002
         [Publisher.token_request (heap (Scenario.world_cached 1060))] [] []
         (Publisher.mkAuth "tenant" "client" "secret" (VStr "tok") 4601)).
Proof.
  split.
  - apply (proj1 (get_token_memoizes (Scenario.azure_grants 3599)
                    (Scenario.world_cached 2000))).
    + reflexivity.
    + unfold Scenario.world_cached; cbn; lia.
  - destruct (get_token_memoizes (Scenario.azure_grants 3599)
                (Scenario.world_cached 1060)) as [_ Hfresh].
    destruct Hfresh as [_ Hfresh].
    { right. unfold Scenario.world_cached. cbn. lia. }
    apply (Hfresh 2%N (Scenario.token_response 3599)
             [("token_type", VStr "Bearer"); ("expires_in", VInt 3599);
              ("access_token", VStr "tok")]
             (VStr "tok") 3599);
      reflexivity.
Defined.

(** A token granted for 30 seconds is handed out with 30 seconds left. *)
Lemma short_lived_token_returned :
  exists w',
    Publisher.get_token (Scenario.azure_grants 30) Scenario.world0
      = (Returns (VStr "tok"), w') /\
    Publisher.token_expiry (heap w') - now w' = 30 /\
    ~ 60 <= Publisher.token_expiry (heap w') - now w'.
Proof.
  eexists. split; [reflexivity |]. cbn. split; [reflexivity | lia].
Qed.

Lemma returned_token_validity_witness :
  VStr "tok" = Publisher.access_token
                 (heap (snd (Publisher.get_token (Scenario.azure_grants 3599)
                                                 Scenario.world0))).
Proof.
  exact (proj1 (returned_token_validity (Scenario.azure_grants 3599)
                  Scenario.world0 _ (VStr "tok") eq_refl)).
Defined.

(* ===================================================================== *)
(** * Workspace resolution                                                  *)
(* ===================================================================== *)

Section Workspaces.

Variable server : Server.
Variable self : Report.PowerBIPublisher.








(** Both scripts, once the service has listed [items]. *)
Lemma publisher_resolution name items (w w1 : world Publisher.PowerBIAuth) :
  Publisher.list_workspaces server w = (Returns (VList items), w1) ->
  Publisher.get_workspace_id server name w = Publisher.for_ws items name w1.
Proof.
  intros Hl. unfold Publisher.get_workspace_id, bind. rewrite Hl. reflexivity.
Qed.




End Workspaces.




(* ===================================================================== *)
(** * The retry loop of [_make_request]                                     *)
(* ===================================================================== *)

Section Retry.

Variable server : Server.
Variable self : Report.PowerBIPublisher.

Local Abbreviation for_attempt := (Report.for_attempt server).

(** A response other than 429 ends the loop at once, at any attempt. *)
Lemma for_attempt_response attempt rest rq (w : world unit) took r :
  server (rq :: sent w) = Responds took r ->
  status_code r <> 429 ->
  for_attempt (attempt :: rest) rq w = (Returns r, after_http took rq w).
Proof.
  intros Hrep Hst. cbn [Report.for_attempt].
  unfold bind at 1, try_except.
  rewrite (bind_returns _ _ _ _ _ (http_responds _ _ _ _ _ Hrep)).
  destruct (Z.eqb_spec (status_code r) 429) as [E | _]; [contradiction |].
  reflexivity.
Qed.




Lemma make_request_unfold m endpoint :
  Report._make_request server self m endpoint =
    for_attempt [0; 1; 2] (Report.api_call self m endpoint).
Proof. reflexivity. Qed.

(** C3.  A response whose status is not 429 is never retried: whatever the
    attempt, the loop returns that response at once, so a call that gets
    one on its first attempt has sent one request and slept not at all;
    a call that sends a second request got a 429 or a network failure on
    the first. *)
Theorem only_429_and_network_failures_retried m endpoint :
  let rq := Report.api_call self m endpoint in
  (forall attempt rest (w : world unit) took r,
      server (rq :: sent w) = Responds took r ->
      status_code r <> 429 ->
      for_attempt (attempt :: rest) rq w = (Returns r, after_http took rq w))
  /\
  (forall (w : world unit) took r,
      server (rq :: sent w) = Responds took r ->
      status_code r <> 429 ->
      Report._make_request server self m endpoint w
        = (Returns r, after_http took rq w))
  /\
  (forall w : world unit,
      (S (List.length (sent w))
       < List.length (sent (snd (Report._make_request server self m endpoint w))))%nat ->
      (exists took, server (rq :: sent w) = NetworkFailure took) \/
      (exists took r, server (rq :: sent w) = Responds took r /\
                      status_code r = 429)).
Proof.
  intros rq. split; [| split].
  - intros. apply for_attempt_response; assumption.
  - intros w took r Hrep Hst. rewrite make_request_unfold.
    apply for_attempt_response; assumption.
  - intros w Hmore.
    destruct (server (rq :: sent w)) as [took | took r] eqn:Hrep.
    + left. exists took. reflexivity.
    + right. exists took, r. split; [reflexivity |].
      destruct (Z.eq_dec (status_code r) 429) as [E | Hne]; [exact E |].
      exfalso. rewrite make_request_unfold in Hmore.
      fold rq in Hmore.
      rewrite (for_attempt_response _ _ _ _ _ _ Hrep Hne) in Hmore.
      cbn in Hmore. lia.
Qed.



End Retry.




Lemma only_429_and_network_failures_retried_witness :
  Report._make_request Scenario.always_forbidden Scenario.publisher0
    GET [Lit "groups"] Scenario.report_world0
  = (Returns Scenario.forbidden,
     after_http 1 (Report.api_call Scenario.publisher0 GET [Lit "groups"])
       Scenario.report_world0).
Proof.
  apply (proj1 (proj2 (only_429_and_network_failures_retried
                         Scenario.always_forbidden Scenario.publisher0
                         GET [Lit "groups"]))).
  - reflexivity.
  - cbn. lia.
Defined.

(* ===================================================================== *)
(** * Validation and upload                                                 *)
(* ===================================================================== *)

Section Upload.

Variable server : Server.
Variable stat : Path -> option Z.
Variable self : Report.PowerBIPublisher.

(** The test [file_size_mb > 1024] is the test [file_size > 1 GiB]. *)
Lemma size_threshold file_size :
  Publisher.over_1024 (Publisher.file_size_mb file_size) = true
  <-> GiB < file_size.
Proof.
  unfold Publisher.over_1024, Publisher.file_size_mb, Qle_bool, GiB.
  cbn. rewrite negb_true_iff, Z.leb_gt. lia.
Qed.


(** ** [import_pbix] *)

Section ImportPbix.

Variables (p : Path) (dataset_name : string) (workspace_id : value)
          (name_conflict : string) (skip_report : bool).

Local Abbreviation import_pbix :=
  (Publisher.import_pbix server stat p dataset_name workspace_id name_conflict
     skip_report).
Local Abbreviation upload tok :=
  (Publisher.upload_request p dataset_name workspace_id name_conflict
     skip_report tok).



Lemma import_pbix_large (w : world Publisher.PowerBIAuth) file_size :
  stat p = Some file_size ->
  lower (suffix p) = ".pbix" ->
  GiB < file_size ->
  import_pbix w =
    Publisher._import_large_pbix server p dataset_name workspace_id
      name_conflict (with_output (uploading_line p file_size) w).
Proof.
  intros Hs Hsuf Hsize. unfold Publisher.import_pbix. rewrite Hs, Hsuf.
  change (negb (String.eqb ".pbix" ".pbix")) with false. cbv iota.
  rewrite (bind_returns _ _ _ _ _ (print_run _ _)).
  apply size_threshold in Hsize. rewrite Hsize. reflexivity.
Qed.



Lemma not_in_success status :
  Publisher.not_in status [200; 201; 202] = false
  <-> status = 200 \/ status = 201 \/ status = 202.
Proof.
  unfold Publisher.not_in. cbn.
  destruct (Z.eqb_spec status 200), (Z.eqb_spec status 201),
    (Z.eqb_spec status 202); cbn; split; intros; try lia; try reflexivity;
    try discriminate.
Qed.




End ImportPbix.

End Upload.

(* ===================================================================== *)
(** * What the functions of the two scripts may do                          *)
(* ===================================================================== *)

Section Frames.

Variable server : Server.
Variable self : Report.PowerBIPublisher.
Variable P : ending -> Prop.
Hypothesis service : allows_service_errors P.

Lemma request_keeps m endpoint params body :
  keeps P (Publisher._request server m endpoint params body).
Proof.
  pose proof (get_token_keeps server P service).
  destruct service as (? & ? & ? & ? & ? & ?).
  unfold Publisher._request.
  apply keeps_bind; [assumption | intros ?]. keeps_tac.
Qed.


Lemma get_import_status_keeps import_id workspace_id :
  keeps P (Publisher.get_import_status server import_id workspace_id).
Proof.
  pose proof request_keeps.
  destruct service as (? & ? & ? & ? & ? & ?).
  unfold Publisher.get_import_status.
  apply keeps_bind; [auto | intros ?]. keeps_tac.
Qed.










Lemma publisher_wait_loop_keeps fuel import_id workspace_id start_time
    timeout poll_interval :
  P (Raised ValueError) -> P (Raised TimeoutError) -> P Diverged ->
  keeps P (Publisher.wait_loop server fuel import_id workspace_id start_time
             timeout poll_interval).
Proof.
  intros Hv Ht Hd. pose proof (get_import_status_keeps) as Hm.
  destruct service as (? & ? & ? & ? & ? & ?).
  induction fuel as [| fuel IH]; cbn [Publisher.wait_loop].
  - apply keeps_diverge. exact Hd.
  - apply keeps_bind; [keeps_tac | intros t].
    destruct (t - start_time <? timeout); [| keeps_tac].
    apply keeps_bind; [auto | intros status].
    apply keeps_bind; [keeps_tac | intros state].
    apply keeps_bind; [keeps_tac | intros ?].
    destruct (eq_str state "Succeeded"); [keeps_tac |].
    destruct (eq_str state "Failed"); [keeps_tac |].
    apply keeps_bind; [keeps_tac | intros ?].
    exact IH.
Qed.

End Frames.

(* ===================================================================== *)
(** * Validation, choice of upload path, and what the upload returns        *)
(* ===================================================================== *)

Section Publishing.

Variable server : Server.
Variable stat : Path -> option Z.
Variable self : Report.PowerBIPublisher.

Variables (p : Path) (file_size : Z).

(** ** [publish_report] *)

Section PublishReport.

Variables (fuel : nat) (workspace_id : string) (report_name : value).

Local Abbreviation publish_report :=
  (Report.publish_report server stat self fuel p workspace_id report_name).
Local Abbreviation upload :=
  (Report.upload_request self p workspace_id (effective_name p report_name)).
Local Abbreviation announced w :=
  (with_outputs
     (publishing_lines p file_size workspace_id (effective_name p report_name))
     w).



Lemma publish_report_validated (w : world unit) :
  stat p = Some file_size ->
  lower (suffix p) = ".pbix" ->
  publish_report w =
    bind (http server upload)
      (fun response =>
         if Report.not_in (status_code response) [200; 202] then
           Report.publish_failed response
         else
           bind (response_json response)
             (fun result =>
                bind (dict_get result "id" VNone)
                  (fun import_id =>
                     bind (log INFO [Lit "Upload initiated (Import ID: ";
                                     FVal import_id; Lit ")"])
                       (fun _ =>
                          bind (log INFO [Lit "Waiting for import to complete..."])
                            (fun _ =>
                               bind (Report._wait_for_import server self fuel
                                       workspace_id import_id
                                       Report.default_timeout)
                                 (Report.import_outcome workspace_id))))))
      (announced w).
Proof.
  intros Hs Hsuf. unfold Report.publish_report. rewrite Hs, Hsuf.
  change (negb (String.eqb ".pbix" ".pbix")) with false. cbv iota zeta.
  reflexivity.
Qed.


Lemma report_not_in_success status :
  Report.not_in status [200; 202] = false <-> status = 200 \/ status = 202.
Proof.
  unfold Report.not_in. cbn.
  destruct (Z.eqb_spec status 200), (Z.eqb_spec status 202); cbn; split;
    intros; try lia; try reflexivity; try discriminate.
Qed.

Lemma publish_report_accepted (w : world unit) took r fields :
  stat p = Some file_size ->
  lower (suffix p) = ".pbix" ->
  server (upload :: sent w) = Responds took r ->
  status_code r = 200 \/ status_code r = 202 ->
  json r = Some (VDict fields) ->
  let import_id := match assoc "id" fields with
                   | Some i => i
                   | None => VNone
                   end in
  publish_report w =
    bind (Report._wait_for_import server self fuel workspace_id import_id
            Report.default_timeout)
      (Report.import_outcome workspace_id)
      (with_outputs
         [Logged INFO [Lit "Waiting for import to complete..."];
          Logged INFO [Lit "Upload initiated (Import ID: "; FVal import_id;
                       Lit ")"]]
         (after_http took upload (announced w))).
Proof.
  intros Hs Hsuf Hrep Hst Hj import_id.
  rewrite (publish_report_validated _ Hs Hsuf).
  rewrite (bind_returns _ _ (announced w) r (after_http took upload (announced w))
             (http_responds _ _ _ _ _ Hrep)).
  apply report_not_in_success in Hst. rewrite Hst.
  rewrite (bind_returns _ _ _ _ _ (response_json_run _ _ _ Hj)).
  reflexivity.
Qed.



End PublishReport.

(** ** [import_pbix] *)

Section ImportPbixClaims.

Variables (dataset_name : string) (workspace_id : value)
          (name_conflict : string) (skip_report : bool).

Local Abbreviation import_pbix :=
  (Publisher.import_pbix server stat p dataset_name workspace_id name_conflict
     skip_report).
Local Abbreviation pbix_upload tok :=
  (Publisher.upload_request p dataset_name workspace_id name_conflict
     skip_report tok).




End ImportPbixClaims.



End Publishing.





(* ===================================================================== *)
(** * Completion polling                                                    *)
(* ===================================================================== *)

Lemma eq_str_true v s : eq_str v s = true <-> v = VStr s.
Proof.
  destruct v; cbn; split; try discriminate.
  - intros E. apply String.eqb_eq in E. congruence.
  - intros [= ->]. apply String.eqb_refl.
Qed.


Section PublisherPolling.

Variable server : Server.
Variables (import_id : string) (workspace_id : value).
Variables (start_time timeout poll_interval : Z).

Local Abbreviation fetch :=
  (Publisher.get_import_status server import_id workspace_id).
Local Abbreviation wait_loop fuel :=
  (Publisher.wait_loop server fuel import_id workspace_id start_time timeout
     poll_interval).
Local Abbreviation status_line state :=
  (Printed [Lit "  Import status: "; FVal state]).

Lemma wait_loop_times_out fuel (w : world Publisher.PowerBIAuth) :
  timeout <= now w - start_time ->
  wait_loop (S fuel) w = (Raises (timed_out timeout), w).
Proof.
  intros Hlate. cbn [Publisher.wait_loop].
  rewrite (bind_returns _ _ _ _ _ (time_time_run w)).
  destruct (Z.ltb_spec (now w - start_time) timeout); [lia | reflexivity].
Qed.

Lemma wait_loop_polls fuel (w w1 : world Publisher.PowerBIAuth) fields :
  now w - start_time < timeout ->
  fetch w = (Returns (VDict fields), w1) ->
  wait_loop (S fuel) w =
    let state := state_of fields (VStr "Unknown") in
    let w2 := with_output (status_line state) w1 in
    if eq_str state "Succeeded" then (Returns (VDict fields), w2)
    else if eq_str state "Failed" then
      (Raises (mkExn Exception_ [Lit "Import failed: "; FVal (VDict fields)]), w2)
    else
      bind (time_sleep poll_interval) (fun _ => wait_loop fuel) w2.
Proof.
  intros Hearly Hfetch. cbn [Publisher.wait_loop].
  rewrite (bind_returns _ _ _ _ _ (time_time_run w)).
  destruct (Z.ltb_spec (now w - start_time) timeout); [| lia].
  rewrite (bind_returns _ _ _ _ _ Hfetch).
  rewrite (bind_returns _ _ _ _ _ (dict_get_run _ _ _ _)).
  rewrite (bind_returns _ _ _ _ _ (print_run _ _)).
  unfold state_of. cbv zeta.
  destruct (eq_str _ "Succeeded"); [reflexivity |].
  destruct (eq_str _ "Failed"); reflexivity.
Qed.

Lemma wait_loop_fetch_raises fuel (w w1 : world Publisher.PowerBIAuth) e :
  now w - start_time < timeout ->
  fetch w = (Raises e, w1) ->
  wait_loop (S fuel) w = (Raises e, w1).
Proof.
  intros Hearly Hfetch. cbn [Publisher.wait_loop].
  rewrite (bind_returns _ _ _ _ _ (time_time_run w)).
  destruct (Z.ltb_spec (now w - start_time) timeout); [| lia].
  apply bind_raises. exact Hfetch.
Qed.

Lemma wait_loop_fetch_not_dict fuel (w w1 : world Publisher.PowerBIAuth) status :
  now w - start_time < timeout ->
  fetch w = (Returns status, w1) ->
  (forall fields, status <> VDict fields) ->
  wait_loop (S fuel) w = (Raises (mkExn AttributeError [Lit "get"]), w1).
Proof.
  intros Hearly Hfetch Hnd. cbn [Publisher.wait_loop].
  rewrite (bind_returns _ _ _ _ _ (time_time_run w)).
  destruct (Z.ltb_spec (now w - start_time) timeout); [| lia].
  rewrite (bind_returns _ _ _ _ _ Hfetch).
  destruct status; try reflexivity. exfalso. eapply Hnd. reflexivity.
Qed.



Lemma fetch_advances (w : world Publisher.PowerBIAuth) :
  advances w (snd (fetch w)) /\
  fst (fetch w) <> Diverges /\
  forall e, fst (fetch w) = Raises e -> cls e <> TimeoutError.
Proof.
  assert (Hsvc : allows_service_errors no_timeout)
    by (repeat split; discriminate).
  destruct (get_import_status_keeps server no_timeout Hsvc import_id
              workspace_id w) as [Hadv Hend].
  split; [exact Hadv |]. split.
  - intros E. rewrite E in Hend. destruct (Hend _ eq_refl) as [Hd _].
    apply Hd. reflexivity.
  - intros e E. rewrite E in Hend. destruct (Hend _ eq_refl) as [_ Ht].
    intros Hc. apply Ht. rewrite Hc. reflexivity.
Qed.



End PublisherPolling.

Section ReportPolling.

Variable server : Server.
Variable self : Report.PowerBIPublisher.
Variables (workspace_id : string) (import_id : value).
Variables (start_time timeout : Z).

Local Abbreviation status_request :=
  (Report.api_call self GET
     [Lit "groups/"; FStr workspace_id; Lit "/imports/"; FVal import_id]).
Local Abbreviation fetch :=
  (Report._make_request server self GET
     [Lit "groups/"; FStr workspace_id; Lit "/imports/"; FVal import_id]).
Local Abbreviation wait_loop fuel :=
  (Report.wait_loop server self fuel workspace_id import_id start_time timeout).
Local Abbreviation elapsed_line state w :=
  (Logged INFO [Lit "Import status: "; FVal state; Lit "... (elapsed: ";
                FInt (now w - start_time); Lit "s)"]).

Lemma report_wait_loop_times_out fuel (w : world unit) :
  timeout <= now w - start_time ->
  wait_loop (S fuel) w = (Raises (timed_out timeout), w).
Proof.
  intros Hlate. cbn [Report.wait_loop].
  rewrite (bind_returns _ _ _ _ _ (time_time_run w)).
  destruct (Z.ltb_spec (now w - start_time) timeout); [lia | reflexivity].
Qed.

Lemma report_wait_loop_polls fuel (w w1 : world unit) r fields :
  now w - start_time < timeout ->
  fetch w = (Returns r, w1) ->
  status_code r = 200 ->
  json r = Some (VDict fields) ->
  wait_loop (S fuel) w =
    let state := state_of fields VNone in
    if eq_str state "Succeeded" then (Returns (VDict fields), w1)
    else if eq_str state "Failed" then
      match failure_message fields with
      | Some m => (Raises (mkExn Exception_ [Lit "Import failed: "; FVal m]), w1)
      | None => (Raises (mkExn AttributeError [Lit "get"]), w1)
      end
    else
      bind (time_sleep Report.check_interval) (fun _ => wait_loop fuel)
        (with_output (elapsed_line state w1) w1).
Proof.
  intros Hearly Hfetch Hst Hj. cbn [Report.wait_loop].
  rewrite (bind_returns _ _ _ _ _ (time_time_run w)).
  destruct (Z.ltb_spec (now w - start_time) timeout); [| lia].
  rewrite (bind_returns _ _ _ _ _ Hfetch).
  rewrite Hst. change (negb (200 =? 200)) with false. cbv iota.
  rewrite (bind_returns _ _ _ _ _ (response_json_run _ _ _ Hj)).
  rewrite (bind_returns _ _ _ _ _ (dict_get_run _ _ _ _)).
  unfold state_of, failure_message. cbv zeta.
  destruct (eq_str _ "Succeeded"); [reflexivity |].
  destruct (eq_str _ "Failed").
  - rewrite (bind_returns _ _ _ _ _ (dict_get_run _ _ _ _)).
    destruct (assoc "error" fields) as [[] |]; reflexivity.
  - rewrite (bind_returns _ _ _ _ _ (time_time_run w1)).
    rewrite (bind_returns _ _ _ _ _ (log_run _ _ _)).
    reflexivity.
Qed.






End ReportPolling.

Section PollingClaims.

Variable server : Server.
Variable self : Report.PowerBIPublisher.

Lemma wait_for_import_unfold fuel import_id workspace_id timeout poll_interval
    (w : world Publisher.PowerBIAuth) :
  Publisher.wait_for_import server fuel import_id workspace_id timeout
    poll_interval w =
  Publisher.wait_loop server fuel import_id workspace_id (now w) timeout
    poll_interval w.
Proof. reflexivity. Qed.

Lemma report_wait_for_import_unfold fuel workspace_id import_id timeout
    (w : world unit) :
  Report._wait_for_import server self fuel workspace_id import_id timeout w =
  Report.wait_loop server self fuel workspace_id import_id (now w) timeout w.
Proof. reflexivity. Qed.



End PollingClaims.




(** The import that succeeds at the second poll is reported after one
    pause. *)
Example succeeds_on_second_poll_run :
  let run := Publisher.wait_for_import Scenario.succeeds_on_second_poll 62
               "imp-1" VNone 300 5 Scenario.world0 in
  fst run = Returns (VDict [("id", VStr "imp-1");
                            ("importState", VStr "Succeeded")]) /\
  slept (snd run) = [5].
Proof. split; reflexivity. Qed.

(* ===================================================================== *)
(** * Further properties of the two scripts                                 *)
(* ===================================================================== *)

(** ** The staged upload of [_import_large_pbix] *)

Section StagedUpload.

Variable server : Server.
Variables (p : Path) (dataset_name : string) (workspace_id : value)
          (name_conflict : string).

Local Abbreviation staged :=
  (Publisher._import_large_pbix server p dataset_name workspace_id
     name_conflict).

Lemma request_run m endpoint params body
    (w w1 : world Publisher.PowerBIAuth) tok took r :
  Publisher.get_token server w = (Returns tok, w1) ->
  server (client_request m endpoint params body tok :: sent w1)
    = Responds took r ->
  Publisher._request server m endpoint params body w =
    (Returns r, after_http took (client_request m endpoint params body tok) w1).
Proof.
  intros Htok Hrep. unfold Publisher._request.
  rewrite (bind_returns _ _ _ _ _ Htok).
  apply http_responds. exact Hrep.
Qed.

Lemma subscript_run {H} fields k v (w : world H) :
  assoc k fields = Some v -> subscript (VDict fields) k w = (Returns v, w).
Proof. intros E. cbn. rewrite E. reflexivity. Qed.

Lemma blob_not_in_success status :
  Publisher.not_in status [200; 201] = false <-> status = 200 \/ status = 201.
Proof.
  unfold Publisher.not_in. cbn.
  destruct (Z.eqb_spec status 200), (Z.eqb_spec status 201); cbn; split;
    intros; try lia; try reflexivity; try discriminate.
Qed.

(** Up to the blob upload. *)
Lemma staged_until_blob (w w1 : world Publisher.PowerBIAuth)
    tok took1 r1 fields upload_url :
  Publisher.get_token server w = (Returns tok, w1) ->
  server (temporary_location_request workspace_id tok :: sent w1)
    = Responds took1 r1 ->
  status_code r1 = 200 ->
  json r1 = Some (VDict fields) ->
  assoc "url" fields = Some upload_url ->
  staged w =
    bind (http server (blob_upload_request upload_url p))
      (fun blob_response =>
         if Publisher.not_in (status_code blob_response) [200; 201] then
           raise Exception_
             [Lit "Blob upload failed: "; FStr (text blob_response)]
         else
           bind (Publisher._request server POST
                   (Publisher.imports_endpoint workspace_id [])
                   [("datasetDisplayName", [FStr dataset_name]);
                    ("nameConflict", [FStr name_conflict])]
                   (JsonBody [("fileUrl", [FVal upload_url])]))
             (fun response =>
                if Publisher.not_in (status_code response) [200; 201; 202] then
                  raise Exception_
                    [Lit "Import from blob failed: "; FStr (text response)]
                else response_json response))
      (with_output (Printed [Lit "Uploading to temporary storage..."])
         (after_http took1 (temporary_location_request workspace_id tok) w1)).
Proof.
  intros Htok Hrep Hst Hj Hurl. unfold Publisher._import_large_pbix.
  rewrite (bind_returns _ _ _ _ _ (request_run _ _ _ _ _ _ _ _ _ Htok Hrep)).
  rewrite Hst. change (negb (200 =? 200)) with false. cbv iota.
  rewrite (bind_returns _ _ _ _ _ (response_json_run _ _ _ Hj)).
  rewrite (bind_returns _ _ _ _ _ (subscript_run _ _ _ _ Hurl)).
  rewrite (bind_returns _ _ _ _ _ (print_run _ _)).
  reflexivity.
Qed.

(** X1.  A staged upload stops at its first refused step: when the temporary
    location is refused nothing is uploaded, and when the blob upload is
    answered with anything but 200 or 201 the import is not started. *)
Theorem staged_upload_stops_at_first_refusal
    (w w1 : world Publisher.PowerBIAuth) tok took1 r1 :
  Publisher.get_token server w = (Returns tok, w1) ->
  server (temporary_location_request workspace_id tok :: sent w1)
    = Responds took1 r1 ->
  let located := after_http took1 (temporary_location_request workspace_id tok) w1 in
  (status_code r1 <> 200 ->
   staged w =
     (Raises (mkExn Exception_
                [Lit "Failed to create upload location: "; FStr (text r1)]),
      located))
  /\
  (status_code r1 = 200 ->
   forall fields upload_url took2 r2,
     json r1 = Some (VDict fields) ->
     assoc "url" fields = Some upload_url ->
     server (blob_upload_request upload_url p :: sent located)
       = Responds took2 r2 ->
     status_code r2 <> 200 /\ status_code r2 <> 201 ->
     staged w =
       (Raises (mkExn Exception_ [Lit "Blob upload failed: "; FStr (text r2)]),
        after_http took2 (blob_upload_request upload_url p)
          (with_output (Printed [Lit "Uploading to temporary storage..."])
             located))).
Proof.
  intros Htok Hrep located. split.
  - intros Hst. unfold Publisher._import_large_pbix.
    rewrite (bind_returns _ _ _ _ _ (request_run _ _ _ _ _ _ _ _ _ Htok Hrep)).
    destruct (Z.eqb_spec (status_code r1) 200); [contradiction | reflexivity].
  - intros Hst fields upload_url took2 r2 Hj Hurl Hrep2 Hst2.
    rewrite (staged_until_blob _ _ _ _ _ _ _ Htok Hrep Hst Hj Hurl).
    rewrite (bind_returns _ _ _ _ _
               (http_responds server _
                  (with_output (Printed [Lit "Uploading to temporary storage..."])
                     located) _ _ Hrep2)).
    assert (Hno : Publisher.not_in (status_code r2) [200; 201] = true).
    { apply not_false_iff_true. rewrite blob_not_in_success. lia. }
    rewrite Hno. reflexivity.
Qed.

(** X2.  A staged upload that goes through sends three requests in this order:
    the request for a temporary location, the upload of the file to the
    URL the service returned, without the bearer token, and the import
    request that names that URL instead of carrying the file; it returns
    the decoded answer to the third. *)
Theorem staged_upload_trace
    (w w1 w4 : world Publisher.PowerBIAuth)
    tok took1 r1 fields upload_url took2 r2 tok' took3 r3 import_info :
  let rq1 := temporary_location_request workspace_id tok in
  let rq2 := blob_upload_request upload_url p in
  let rq3 := import_from_blob_request workspace_id dataset_name name_conflict
               upload_url tok' in
  let uploaded :=
    after_http took2 rq2
      (with_output (Printed [Lit "Uploading to temporary storage..."])
         (after_http took1 rq1 w1)) in
  Publisher.get_token server w = (Returns tok, w1) ->
  server (rq1 :: sent w1) = Responds took1 r1 ->
  status_code r1 = 200 ->
  json r1 = Some (VDict fields) ->
  assoc "url" fields = Some upload_url ->
  server (rq2 :: rq1 :: sent w1) = Responds took2 r2 ->
  status_code r2 = 200 \/ status_code r2 = 201 ->
  Publisher.get_token server uploaded = (Returns tok', w4) ->
  server (rq3 :: sent w4) = Responds took3 r3 ->
  status_code r3 = 200 \/ status_code r3 = 201 \/ status_code r3 = 202 ->
  json r3 = Some import_info ->
  staged w = (Returns import_info, after_http took3 rq3 w4).
Proof.
  intros rq1 rq2 rq3 uploaded Htok Hrep1 Hst1 Hj1 Hurl Hrep2 Hst2 Htok' Hrep3
    Hst3 Hj3.
  rewrite (staged_until_blob _ _ _ _ _ _ _ Htok Hrep1 Hst1 Hj1 Hurl).
  rewrite (bind_returns _ _ _ _ _
             (http_responds server _
                (with_output (Printed [Lit "Uploading to temporary storage..."])
                   (after_http took1 rq1 w1)) _ _ Hrep2)).
  apply blob_not_in_success in Hst2. rewrite Hst2.
  rewrite (bind_returns _ _ _ _ _ (request_run _ _ _ _ _ _ _ _ _ Htok' Hrep3)).
  apply not_in_success in Hst3. rewrite Hst3.
  apply response_json_run. exact Hj3.
Qed.

End StagedUpload.

(** X3.  [skip_report] has no effect on a file of more than 1 GiB: the staged
    path never looks at it. *)
Theorem staged_upload_ignores_skip_report
    (server : Server) (stat : Path -> option Z) (p : Path) (file_size : Z)
    (dataset_name : string) (workspace_id : value) (name_conflict : string)
    (w : world Publisher.PowerBIAuth) :
  stat p = Some file_size ->
  lower (suffix p) = ".pbix" ->
  GiB < file_size ->
  Publisher.import_pbix server stat p dataset_name workspace_id name_conflict
    true w =
  Publisher.import_pbix server stat p dataset_name workspace_id name_conflict
    false w.
Proof.
  intros Hs Hsuf Hbig.
  rewrite !(import_pbix_large server stat p dataset_name workspace_id
              name_conflict _ w file_size Hs Hsuf Hbig).
  reflexivity.
Qed.

(** A refused temporary location, and a blob upload answered with 202. *)
Lemma staged_upload_stops_at_first_refusal_witness :
  fst (Publisher._import_large_pbix (Scenario.staged_service 403 201 202)
         Scenario.big_file "Big" VNone "Abort" Scenario.world0)
  = Raises (mkExn Exception_
              [Lit "Failed to create upload location: ";
               FStr (text (Scenario.upload_location 403))])
  /\
  fst (Publisher._import_large_pbix (Scenario.staged_service 200 202 202)
         Scenario.big_file "Big" VNone "Abort" Scenario.world0)
  = Raises (mkExn Exception_ [Lit "Blob upload failed: "; FStr ""]).
Proof.
  split.
  - destruct (staged_upload_stops_at_first_refusal
                (Scenario.staged_service 403 201 202) Scenario.big_file "Big"
                VNone "Abort" Scenario.world0 Scenario.world_authenticated
                (VStr "tok") 1%N (Scenario.upload_location 403)
                eq_refl eq_refl) as [Hrefused _].
    rewrite Hrefused; [reflexivity | cbn; lia].
  - destruct (staged_upload_stops_at_first_refusal
                (Scenario.staged_service 200 202 202) Scenario.big_file "Big"
                VNone "Abort" Scenario.world0 Scenario.world_authenticated
                (VStr "tok") 1%N (Scenario.upload_location 200)
                eq_refl eq_refl) as [_ Hblob].
    rewrite (Hblob eq_refl [("url", VStr "https://blob/upload")]
               (VStr "https://blob/upload") 60%N (Scenario.blob_answer 202)
               eq_refl eq_refl eq_refl);
      [reflexivity | cbn; lia].
Defined.

(** The three requests of an upload that goes through, newest first, after
    the token exchange. *)
Lemma staged_upload_trace_witness :
  let run := Publisher._import_large_pbix (Scenario.staged_service 200 201 202)
               Scenario.big_file "Big" VNone "Abort" Scenario.world0 in
  fst run = Returns (VDict [("id", VStr "imp-9")]) /\
  sent (snd run) =
    [import_from_blob_request VNone "Big" "Abort" (VStr "https://blob/upload")
       (VStr "tok");
     blob_upload_request (VStr "https://blob/upload") Scenario.big_file;
     temporary_location_request VNone (VStr "tok");
     Publisher.token_request (heap Scenario.world0)].
Proof.
  cbv zeta.
  rewrite (staged_upload_trace (Scenario.staged_service 200 201 202)
             Scenario.big_file "Big" VNone "Abort" Scenario.world0
             Scenario.world_authenticated _ (VStr "tok") 1%N
             (Scenario.upload_location 200)
             [("url", VStr "https://blob/upload")] (VStr "https://blob/upload")
             60%N (Scenario.blob_answer 201) (VStr "tok") 1%N
             (Scenario.import_started 202) (VDict [("id", VStr "imp-9")])
             eq_refl eq_refl eq_refl eq_refl eq_refl eq_refl
             (or_intror eq_refl) eq_refl eq_refl
             (or_intror (or_intror eq_refl)) eq_refl).
  split; reflexivity.
Defined.

Lemma staged_upload_ignores_skip_report_witness :
  Publisher.import_pbix (Scenario.staged_service 200 201 202) Scenario.disk
    Scenario.big_file "Big" VNone "Abort" true Scenario.world0 =
  Publisher.import_pbix (Scenario.staged_service 200 201 202) Scenario.disk
    Scenario.big_file "Big" VNone "Abort" false Scenario.world0.
Proof.
  apply (staged_upload_ignores_skip_report (Scenario.staged_service 200 201 202)
           Scenario.disk Scenario.big_file (GiB + 1)).
  - reflexivity.
  - reflexivity.
  - lia.
Defined.

(** ** More on completion polling *)

Section PollingResults.

Variable server : Server.
Variable self : Report.PowerBIPublisher.

Lemma publisher_wait_loop_returns import_id workspace_id start_time timeout
    poll_interval :
  forall fuel (w w' : world Publisher.PowerBIAuth) status,
    Publisher.wait_loop server fuel import_id workspace_id start_time timeout
      poll_interval w = (Returns status, w') ->
    exists fields,
      status = VDict fields /\
      state_of fields (VStr "Unknown") = VStr "Succeeded".
Proof.
  induction fuel as [| fuel IH]; intros w w' status Hrun; [discriminate |].
  destruct (Z.lt_ge_cases (now w - start_time) timeout) as [Hearly | Hlate].
  - destruct (Publisher.get_import_status server import_id workspace_id w)
      as [[st | e |] w1] eqn:Hfetch.
    + destruct st;
        try (rewrite (wait_loop_fetch_not_dict server import_id workspace_id
                        start_time timeout poll_interval fuel w w1 _
                        Hearly Hfetch) in Hrun;
             [discriminate | intros ?; discriminate]).
      rewrite (wait_loop_polls server import_id workspace_id start_time timeout
                 poll_interval fuel w w1 fields Hearly Hfetch) in Hrun.
      cbv zeta in Hrun.
      destruct (eq_str _ "Succeeded") eqn:Hs.
      * injection Hrun as <- _. exists fields. split; [reflexivity |].
        apply eq_str_true. exact Hs.
      * destruct (eq_str _ "Failed"); [discriminate |].
        unfold bind at 1 in Hrun.
        destruct (time_sleep poll_interval _) as [[[] | e |] w2];
          [| discriminate | discriminate].
        eapply IH. exact Hrun.
    + rewrite (wait_loop_fetch_raises server import_id workspace_id start_time
                 timeout poll_interval fuel w w1 e Hearly Hfetch) in Hrun.
      discriminate.
    + cbn [Publisher.wait_loop] in Hrun.
      rewrite (bind_returns _ _ _ _ _ (time_time_run w)) in Hrun.
      destruct (Z.ltb_spec (now w - start_time) timeout); [| lia].
      rewrite (bind_diverges _ _ _ _ Hfetch) in Hrun. discriminate.
  - rewrite (wait_loop_times_out server import_id workspace_id start_time
               timeout poll_interval fuel w Hlate) in Hrun.
    discriminate.
Qed.

Lemma report_wait_loop_returns workspace_id import_id start_time timeout :
  forall fuel (w w' : world unit) status,
    Report.wait_loop server self fuel workspace_id import_id start_time timeout
      w = (Returns status, w') ->
    exists fields,
      status = VDict fields /\ state_of fields VNone = VStr "Succeeded".
Proof.
  induction fuel as [| fuel IH]; intros w w' status Hrun; [discriminate |].
  destruct (Z.lt_ge_cases (now w - start_time) timeout) as [Hearly | Hlate].
  - destruct (Report._make_request server self GET
                [Lit "groups/"; FStr workspace_id; Lit "/imports/";
                 FVal import_id] w) as [[r | e |] w1] eqn:Hfetch.
    + destruct (Z.eq_dec (status_code r) 200) as [Hst | Hst];
        [destruct (json r) as [[| | | | | fields] |] eqn:Hj |].
      6:{ rewrite (report_wait_loop_polls server self workspace_id import_id
                     start_time timeout fuel w w1 r fields Hearly Hfetch Hst Hj)
            in Hrun.
          cbv zeta in Hrun.
          destruct (eq_str _ "Succeeded") eqn:Hs.
          - injection Hrun as <- _. exists fields. split; [reflexivity |].
            apply eq_str_true. exact Hs.
          - destruct (eq_str _ "Failed");
              [destruct (failure_message fields); discriminate |].
            unfold bind at 1 in Hrun.
            destruct (time_sleep Report.check_interval _) as [[[] | e |] w2];
              [| discriminate | discriminate].
            eapply IH. exact Hrun. }
      all: exfalso; cbn [Report.wait_loop] in Hrun;
        rewrite (bind_returns _ _ _ _ _ (time_time_run w)) in Hrun;
        destruct (Z.ltb_spec (now w - start_time) timeout); [| lia];
        rewrite (bind_returns _ _ _ _ _ Hfetch) in Hrun;
        try (destruct (Z.eqb_spec (status_code r) 200); [contradiction |];
             discriminate);
        rewrite Hst in Hrun; change (negb (200 =? 200)) with false in Hrun;
        cbv iota in Hrun; unfold response_json in Hrun; rewrite Hj in Hrun;
        discriminate.
    + exfalso. cbn [Report.wait_loop] in Hrun.
      rewrite (bind_returns _ _ _ _ _ (time_time_run w)) in Hrun.
      destruct (Z.ltb_spec (now w - start_time) timeout); [| lia].
      rewrite (bind_raises _ _ _ _ _ Hfetch) in Hrun. discriminate.
    + exfalso. cbn [Report.wait_loop] in Hrun.
      rewrite (bind_returns _ _ _ _ _ (time_time_run w)) in Hrun.
      destruct (Z.ltb_spec (now w - start_time) timeout); [| lia].
      rewrite (bind_diverges _ _ _ _ Hfetch) in Hrun. discriminate.
  - rewrite (report_wait_loop_times_out server self workspace_id import_id
               start_time timeout fuel w Hlate) in Hrun.
    discriminate.
Qed.

(** X4.  Whatever polling returns is a status document whose state is
    "Succeeded": no other document ever comes back from either script's
    wait. *)
Theorem polling_returns_only_succeeded :
  (forall fuel import_id workspace_id timeout poll_interval
          (w w' : world Publisher.PowerBIAuth) status,
      Publisher.wait_for_import server fuel import_id workspace_id timeout
        poll_interval w = (Returns status, w') ->
      exists fields,
        status = VDict fields /\
        state_of fields (VStr "Unknown") = VStr "Succeeded")
  /\
  (forall fuel workspace_id import_id timeout (w w' : world unit) status,
      Report._wait_for_import server self fuel workspace_id import_id timeout w
        = (Returns status, w') ->
      exists fields,
        status = VDict fields /\ state_of fields VNone = VStr "Succeeded").
Proof.
  split.
  - intros fuel import_id workspace_id timeout poll_interval w w' status Hrun.
    rewrite wait_for_import_unfold in Hrun.
    eapply publisher_wait_loop_returns. exact Hrun.
  - intros fuel workspace_id import_id timeout w w' status Hrun.
    rewrite report_wait_for_import_unfold in Hrun.
    eapply report_wait_loop_returns. exact Hrun.
Qed.

End PollingResults.

(** ** Sleeping is confined to the loops *)

Section NeverSleeps.

Context {H : Type}.

Lemma never_sleeps_ret {A} (a : A) : never_sleeps (H:=H) (ret a).
Proof. intros w. reflexivity. Qed.

Lemma never_sleeps_raise {A} c m : never_sleeps (H:=H) (A:=A) (raise c m).
Proof. intros w. reflexivity. Qed.

Lemma never_sleeps_bind {A B} (c : M H A) (k : A -> M H B) :
  never_sleeps c -> (forall a, never_sleeps (k a)) -> never_sleeps (bind c k).
Proof.
  intros Hc Hk w. unfold bind. specialize (Hc w).
  destruct (c w) as [[a | e |] w1]; cbn in *; try exact Hc.
  rewrite (Hk a w1). exact Hc.
Qed.

Lemma never_sleeps_get_heap : never_sleeps (H:=H) get_heap.
Proof. intros w. reflexivity. Qed.

Lemma never_sleeps_set_heap h : never_sleeps (H:=H) (set_heap h).
Proof. intros w. reflexivity. Qed.

Lemma never_sleeps_time_time : never_sleeps (H:=H) time_time.
Proof. intros w. reflexivity. Qed.

Lemma never_sleeps_print l : never_sleeps (H:=H) (print l).
Proof. intros w. reflexivity. Qed.

Lemma never_sleeps_log lvl l : never_sleeps (H:=H) (log lvl l).
Proof. intros w. reflexivity. Qed.

Lemma never_sleeps_http server rq : never_sleeps (H:=H) (http server rq).
Proof. intros w. reflexivity. Qed.

Lemma never_sleeps_expect {A} (o : option A) c m :
  never_sleeps (H:=H) (expect o c m).
Proof. destruct o; intros w; reflexivity. Qed.

Lemma never_sleeps_response_json r : never_sleeps (H:=H) (response_json r).
Proof. apply never_sleeps_expect. Qed.

Lemma never_sleeps_subscript v k : never_sleeps (H:=H) (subscript v k).
Proof. destruct v; try (intros w; reflexivity). apply never_sleeps_expect. Qed.

Lemma never_sleeps_dict_get v k d : never_sleeps (H:=H) (dict_get v k d).
Proof. destruct v; intros w; reflexivity. Qed.

Lemma never_sleeps_add_number t v : never_sleeps (H:=H) (add_number t v).
Proof. destruct v; intros w; reflexivity. Qed.

End NeverSleeps.

Ltac never_sleeps_tac :=
  repeat first
    [ apply never_sleeps_ret
    | apply never_sleeps_raise
    | apply never_sleeps_bind; [| intros ?]
    | apply never_sleeps_get_heap
    | apply never_sleeps_set_heap
    | apply never_sleeps_time_time
    | apply never_sleeps_print
    | apply never_sleeps_log
    | apply never_sleeps_http
    | apply never_sleeps_response_json
    | apply never_sleeps_subscript
    | apply never_sleeps_dict_get
    | apply never_sleeps_add_number
    | apply never_sleeps_expect
    | match goal with
      | |- never_sleeps (if ?b then _ else _) => destruct b
      | |- never_sleeps (match ?x with _ => _ end) => destruct x
      end ].

Section SleepBudget.

Variable server : Server.
Variables (import_id : string) (workspace_id : value).
Variables (start_time timeout poll_interval : Z).

Lemma get_token_never_sleeps : never_sleeps (Publisher.get_token server).
Proof.
  unfold Publisher.get_token, Publisher.set_access_token,
    Publisher.set_token_expiry.
  never_sleeps_tac.
Qed.

Lemma get_import_status_never_sleeps :
  never_sleeps (Publisher.get_import_status server import_id workspace_id).
Proof.
  pose proof get_token_never_sleeps.
  unfold Publisher.get_import_status, Publisher._request.
  apply never_sleeps_bind; [| intros ?; never_sleeps_tac].
  apply never_sleeps_bind; [assumption | intros ?; never_sleeps_tac].
Qed.

Lemma total_slept_after_sleep {H} d (w : world H) :
  total_slept (after_sleep d w) = d + total_slept w.
Proof. reflexivity. Qed.

(** From a pass whose test fails nothing more is slept; from one whose test
    passes, less than the time that is left plus one interval. *)
Lemma wait_loop_sleep_budget :
  0 <= poll_interval ->
  forall fuel (w : world Publisher.PowerBIAuth),
    let w' := snd (Publisher.wait_loop server fuel import_id workspace_id
                     start_time timeout poll_interval w) in
    (timeout <= now w - start_time -> total_slept w' = total_slept w) /\
    (now w - start_time < timeout ->
     total_slept w' - total_slept w
       < timeout - (now w - start_time) + poll_interval).
Proof.
  intros Hpoll. induction fuel as [| fuel IH]; intros w; cbv zeta.
  - cbn. split; intros; lia.
  - split.
    + intros Hlate.
      rewrite (wait_loop_times_out server import_id workspace_id start_time
                 timeout poll_interval fuel w Hlate). reflexivity.
    + intros Hearly.
      pose proof (get_import_status_never_sleeps w) as Hquiet.
      destruct (fetch_advances server import_id workspace_id w)
        as ([Hnow _] & _ & _).
      destruct (Publisher.get_import_status server import_id workspace_id w)
        as [[st | e |] w1] eqn:Hfetch; cbn [fst snd] in Hquiet, Hnow.
      * destruct st;
          try (rewrite (wait_loop_fetch_not_dict server import_id workspace_id
                          start_time timeout poll_interval fuel w w1 _
                          Hearly Hfetch);
               [cbn [snd]; unfold total_slept; rewrite Hquiet; lia
               | intros ?; discriminate]).
        rewrite (wait_loop_polls server import_id workspace_id start_time
                   timeout poll_interval fuel w w1 fields Hearly Hfetch).
        cbv zeta.
        destruct (eq_str _ "Succeeded");
          [cbn [snd]; unfold total_slept, with_output; cbn [slept];
           rewrite Hquiet; lia |].
        destruct (eq_str _ "Failed");
          [cbn [snd]; unfold total_slept, with_output; cbn [slept];
           rewrite Hquiet; lia |].
        rewrite (bind_returns _ _ _ _ _ (time_sleep_run _ _ Hpoll)).
        match goal with
        | |- context [Publisher.wait_loop _ _ _ _ _ _ _ ?w2] =>
            destruct (IH w2) as [IHlate IHearly];
            assert (Hs2 : total_slept w2 = poll_interval + total_slept w)
              by (unfold total_slept, after_sleep, with_output; cbn [slept];
                  cbn [fold_right]; rewrite Hquiet; reflexivity);
            assert (Hn2 : now w2 = now w1 + poll_interval) by reflexivity;
            destruct (Z.lt_ge_cases (now w2 - start_time) timeout)
              as [He2 | Hl2];
            [specialize (IHearly He2) | specialize (IHlate Hl2)]
        end; lia.
      * rewrite (wait_loop_fetch_raises server import_id workspace_id
                   start_time timeout poll_interval fuel w w1 e Hearly Hfetch).
        cbn [snd]. unfold total_slept. rewrite Hquiet. lia.
      * cbn [Publisher.wait_loop].
        rewrite (bind_returns _ _ _ _ _ (time_time_run w)).
        destruct (Z.ltb_spec (now w - start_time) timeout); [| lia].
        rewrite (bind_diverges _ _ _ _ Hfetch).
        cbn [snd]. unfold total_slept. rewrite Hquiet. lia.
Qed.

End SleepBudget.

(** X5.  [wait_for_import] sleeps less than timeout + poll interval in all,
    however long the service takes to answer; with a timeout that is not
    positive it raises the timeout at once, without a single status
    request. *)
Theorem wait_for_import_sleep_budget
    (server : Server) (import_id : string) (workspace_id : value)
    (timeout poll_interval : Z) (fuel : nat)
    (w : world Publisher.PowerBIAuth) :
  0 <= poll_interval ->
  let run := Publisher.wait_for_import server (S fuel) import_id workspace_id
               timeout poll_interval w in
  (0 < timeout ->
   total_slept (snd run) - total_slept w < timeout + poll_interval)
  /\
  (timeout <= 0 -> run = (Raises (timed_out timeout), w)).
Proof.
  intros Hpoll run. subst run. rewrite wait_for_import_unfold. split.
  - intros Hpos.
    destruct (wait_loop_sleep_budget server import_id workspace_id (now w)
                timeout poll_interval Hpoll (S fuel) w) as [_ Hearly].
    cbv zeta in Hearly. specialize (Hearly ltac:(lia)). lia.
  - intros Hneg. apply wait_loop_times_out. lia.
Qed.

(** ** A status request that is refused *)

(** X6.  A status request answered with anything but 200 ends the wait at once
    with an error that carries the response text: [powerbi_publisher.py]
    does not ask again, and neither does [publish_powerbi_report.py] unless
    the status was 429. *)
Theorem refused_status_request_ends_polling
    (server : Server) (self : Report.PowerBIPublisher)
    (fuel : nat) (timeout : Z) :
  0 < timeout ->
  (forall import_id workspace_id poll_interval
          (w w1 : world Publisher.PowerBIAuth) tok took r,
      let rq := client_request GET
                  (Publisher.imports_endpoint workspace_id
                     [Lit "/"; FStr import_id]) [] NoBody tok in
      Publisher.get_token server w = (Returns tok, w1) ->
      server (rq :: sent w1) = Responds took r ->
      status_code r <> 200 ->
      Publisher.wait_for_import server (S fuel) import_id workspace_id timeout
        poll_interval w =
        (Raises (mkExn Exception_
                   [Lit "Failed to get import status: "; FStr (text r)]),
         after_http took rq w1))
  /\
  (forall workspace_id import_id (w : world unit) took r,
      let rq := Report.api_call self GET
                  [Lit "groups/"; FStr workspace_id; Lit "/imports/";
                   FVal import_id] in
      server (rq :: sent w) = Responds took r ->
      status_code r <> 429 ->
      status_code r <> 200 ->
      Report._wait_for_import server self (S fuel) workspace_id import_id
        timeout w =
        (Raises (mkExn Exception_
                   [Lit "Failed to check import status: "; FStr (text r)]),
         after_http took rq w)).
Proof.
  intros Hpos. split.
  - intros import_id workspace_id poll_interval w w1 tok took r rq Htok Hrep Hst.
    rewrite wait_for_import_unfold.
    apply wait_loop_fetch_raises; [lia |].
    unfold Publisher.get_import_status.
    rewrite (bind_returns _ _ _ _ _ (request_run _ _ _ _ _ _ _ _ _ _ Htok Hrep)).
    destruct (Z.eqb_spec (status_code r) 200); [contradiction | reflexivity].
  - intros workspace_id import_id w took r rq Hrep H429 Hst.
    rewrite report_wait_for_import_unfold. cbn [Report.wait_loop].
    rewrite (bind_returns _ _ _ _ _ (time_time_run w)).
    destruct (Z.ltb_spec (now w - now w) timeout); [| lia].
    rewrite make_request_unfold.
    rewrite (bind_returns _ _ _ _ _
               (for_attempt_response server _ _ _ _ _ _ Hrep H429)).
    destruct (Z.eqb_spec (status_code r) 200); [contradiction | reflexivity].
Qed.

(** ** The token exchange when it fails *)

Section TokenFailure.

Variable server : Server.

(** X7.  A token exchange that fails, whether below HTTP, by a status other
    than 200 or by an answer without an access token, raises and leaves
    the authenticator as it was: one request has been sent, the cached
    token and its expiry are untouched. *)
Theorem failed_token_exchange_keeps_cache (w : world Publisher.PowerBIAuth) :
  truthy (Publisher.access_token (heap w)) = false \/
  Publisher.token_expiry (heap w) - 60 <= now w ->
  let rq := Publisher.token_request (heap w) in
  (forall took,
      server (rq :: sent w) = NetworkFailure took ->
      Publisher.get_token server w =
        (Raises (mkExn RequestException []), after_http took rq w))
  /\
  (forall took r,
      server (rq :: sent w) = Responds took r ->
      status_code r <> 200 ->
      Publisher.get_token server w =
        (Raises (mkExn Exception_
                   [Lit "Authentication failed: "; FStr (text r)]),
         after_http took rq w))
  /\
  (forall took r fields,
      server (rq :: sent w) = Responds took r ->
      status_code r = 200 ->
      json r = Some (VDict fields) ->
      assoc "access_token" fields = None ->
      Publisher.get_token server w =
        (Raises (mkExn KeyError [FStr "access_token"]), after_http took rq w)).
Proof.
  intros Hstale rq. apply stale_test in Hstale.
  assert (Hunfold :
            Publisher.get_token server w =
            bind (http server rq)
              (fun response =>
                 if negb (status_code response =? 200) then
                   raise Exception_
                     [Lit "Authentication failed: "; FStr (text response)]
                 else
                   bind (response_json response)
                     (fun token_data =>
                        bind (subscript token_data "access_token")
                          (fun tok =>
                             bind (Publisher.set_access_token tok)
                               (fun _ =>
                                  bind time_time
                                    (fun t =>
                                       bind (dict_get token_data "expires_in"
                                               (VInt 3600))
                                         (fun lifetime =>
                                            bind (add_number t lifetime)
                                              (fun expiry =>
                                                 bind (Publisher.set_token_expiry
                                                         expiry)
                                                   (fun _ =>
                                                      bind get_heap
                                                        (fun self' =>
                                                           ret (Publisher.access_token
                                                                  self')))))))))) w).
  { unfold Publisher.get_token.
    unfold bind at 1, get_heap at 1. cbv beta iota.
    unfold bind at 1.
    destruct (truthy (Publisher.access_token (heap w)));
      [unfold bind at 1, time_time, ret at 1; cbv beta iota; rewrite Hstale
      | unfold ret at 1; cbv beta iota];
      reflexivity. }
  rewrite Hunfold. split; [| split].
  - intros took Hrep. apply bind_raises. apply http_fails. exact Hrep.
  - intros took r Hrep Hst.
    rewrite (bind_returns _ _ _ _ _ (http_responds _ _ _ _ _ Hrep)).
    destruct (Z.eqb_spec (status_code r) 200); [contradiction | reflexivity].
  - intros took r fields Hrep Hst Hj Hkey.
    rewrite (bind_returns _ _ _ _ _ (http_responds _ _ _ _ _ Hrep)).
    rewrite Hst. change (negb (200 =? 200)) with false. cbv iota.
    rewrite (bind_returns _ _ _ _ _ (response_json_run _ _ _ Hj)).
    apply bind_raises. cbn. rewrite Hkey. reflexivity.
Qed.

End TokenFailure.

(** ** The other calls of [PowerBIClient] *)

Section ClientCalls.

Variable server : Server.

(** X8.  Deleting a report and refreshing a dataset never raise on an HTTP
    status: whatever the service answers, the call returns a boolean, true
    exactly for status 200 (deletion) and for status 202 (refresh). *)
Theorem refusals_come_back_as_false
    (item_id : string) (workspace_id : value)
    (w w1 : world Publisher.PowerBIAuth) tok :
  Publisher.get_token server w = (Returns tok, w1) ->
  (forall took r,
      let rq := client_request DELETE
                  (if truthy workspace_id
                   then [Lit "/groups/"; FVal workspace_id; Lit "/reports/";
                         FStr item_id]
                   else [Lit "/reports/"; FStr item_id]) [] NoBody tok in
      server (rq :: sent w1) = Responds took r ->
      exists deleted,
        Publisher.delete_report server item_id workspace_id w
          = (Returns deleted, after_http took rq w1) /\
        (deleted = true <-> status_code r = 200))
  /\
  (forall took r,
      let rq := client_request POST
                  (if truthy workspace_id
                   then [Lit "/groups/"; FVal workspace_id; Lit "/datasets/";
                         FStr item_id; Lit "/refreshes"]
                   else [Lit "/datasets/"; FStr item_id; Lit "/refreshes"])
                  [] NoBody tok in
      server (rq :: sent w1) = Responds took r ->
      exists started,
        Publisher.refresh_dataset server item_id workspace_id w
          = (Returns started, after_http took rq w1) /\
        (started = true <-> status_code r = 202)).
Proof.
  intros Htok. split.
  - intros took r rq Hrep. exists (status_code r =? 200). split.
    + unfold Publisher.delete_report.
      rewrite (bind_returns _ _ _ _ _ (request_run _ _ _ _ _ _ _ _ _ _ Htok Hrep)).
      reflexivity.
    + apply Z.eqb_eq.
  - intros took r rq Hrep. exists (status_code r =? 202). split.
    + unfold Publisher.refresh_dataset.
      rewrite (bind_returns _ _ _ _ _ (request_run _ _ _ _ _ _ _ _ _ _ Htok Hrep)).
      reflexivity.
    + apply Z.eqb_eq.
Qed.

(** X9.  A 200 answer whose body has no "value" entry is read as an empty
    listing by [list_workspaces], [list_reports] and [list_datasets]; a
    workspace looked up in such a listing is not found, and that is
    reported by returning [None]. *)
Theorem listing_without_value_is_empty
    (workspace_id : value) (name : string)
    (w w1 : world Publisher.PowerBIAuth) tok :
  Publisher.get_token server w = (Returns tok, w1) ->
  forall took r fields,
    status_code r = 200 ->
    json r = Some (VDict fields) ->
    assoc "value" fields = None ->
    (server (client_request GET [Lit "/groups"] [] NoBody tok :: sent w1)
       = Responds took r ->
     let w2 := after_http took (client_request GET [Lit "/groups"] [] NoBody tok)
                 w1 in
     Publisher.list_workspaces server w = (Returns (VList []), w2) /\
     Publisher.get_workspace_id server name w = (Returns VNone, w2))
    /\
    (let rq := client_request GET
                 (if truthy workspace_id
                  then [Lit "/groups/"; FVal workspace_id; Lit "/reports"]
                  else [Lit "/reports"]) [] NoBody tok in
     server (rq :: sent w1) = Responds took r ->
     Publisher.list_reports server workspace_id w
       = (Returns (VList []), after_http took rq w1))
    /\
    (let rq := client_request GET
                 (if truthy workspace_id
                  then [Lit "/groups/"; FVal workspace_id; Lit "/datasets"]
                  else [Lit "/datasets"]) [] NoBody tok in
     server (rq :: sent w1) = Responds took r ->
     Publisher.list_datasets server workspace_id w
       = (Returns (VList []), after_http took rq w1)).
Proof.
  intros Htok took r fields Hst Hj Hv.
  assert (Hlist : forall m endpoint,
             server (client_request m endpoint [] NoBody tok :: sent w1)
               = Responds took r ->
             forall failure,
               bind (Publisher._request server m endpoint [] NoBody)
                 (fun response =>
                    if negb (status_code response =? 200) then
                      raise Exception_ [Lit failure; FStr (text response)]
                    else
                      bind (response_json response)
                        (fun j => dict_get j "value" (VList []))) w
               = (Returns (VList []),
                  after_http took (client_request m endpoint [] NoBody tok) w1)).
  { intros m endpoint Hrep failure.
    rewrite (bind_returns _ _ _ _ _ (request_run _ _ _ _ _ _ _ _ _ _ Htok Hrep)).
    rewrite Hst. change (negb (200 =? 200)) with false. cbv iota.
    rewrite (bind_returns _ _ _ _ _ (response_json_run _ _ _ Hj)).
    cbn. rewrite Hv. reflexivity. }
  split; [| split].
  - intros Hrep w2.
    assert (Hl : Publisher.list_workspaces server w = (Returns (VList []), w2))
      by (exact (Hlist GET [Lit "/groups"] Hrep "Failed to list workspaces: ")).
    split; [exact Hl |].
    rewrite (publisher_resolution server name [] w w2 Hl). reflexivity.
  - intros rq Hrep. exact (Hlist GET _ Hrep "Failed to list reports: ").
  - intros rq Hrep. exact (Hlist GET _ Hrep "Failed to list datasets: ").
Qed.

End ClientCalls.

(** ** A listed workspace without a name *)


(** ** More on the retry loop of [_make_request] *)

Section RetryMore.

Variable server : Server.
Variable self : Report.PowerBIPublisher.

Local Abbreviation for_attempt := (Report.for_attempt server).

(** A failure below HTTP before the last attempt: a pause, then the next
    attempt. *)
Lemma for_attempt_network_failure attempt rest rq (w : world unit) took :
  server (rq :: sent w) = NetworkFailure took ->
  attempt <> 2 ->
  0 <= attempt ->
  for_attempt (attempt :: rest) rq w =
    for_attempt rest rq
      (after_sleep (2 * (attempt + 1))
         (with_output (request_failed_line attempt) (after_http took rq w))).
Proof.
  intros Hrep Hnot Hpos. cbn [Report.for_attempt].
  unfold bind at 1, try_except.
  rewrite (bind_raises _ _ _ _ _ (http_fails _ _ _ _ Hrep)).
  change (exn_class_eqb (cls (mkExn RequestException [])) RequestException)
    with true. cbv iota.
  change (Z.of_nat Report.max_retries - 1) with 2.
  destruct (Z.eqb_spec attempt 2) as [E | _]; [contradiction |].
  rewrite (bind_returns _ _ _ _ _ (log_run _ _ _)).
  assert (Hd : 0 <= Report.retry_delay * (attempt + 1))
    by (unfold Report.retry_delay; lia).
  rewrite (bind_returns _ _ _ _ _ (time_sleep_run _ _ Hd)).
  reflexivity.
Qed.

(** On the last attempt the failure is passed on. *)
Lemma for_attempt_last_failure rest rq (w : world unit) took :
  server (rq :: sent w) = NetworkFailure took ->
  for_attempt (2 :: rest) rq w =
    (Raises (mkExn RequestException []), after_http took rq w).
Proof.
  intros Hrep. cbn [Report.for_attempt].
  unfold bind at 1, try_except.
  rewrite (bind_raises _ _ _ _ _ (http_fails _ _ _ _ Hrep)).
  reflexivity.
Qed.

(** X11.  Failures below HTTP are retried with pauses of 2 and 4 seconds: a
    response that then arrives is returned, and a service that stays out
    of reach makes the call pass on the third failure itself, after three
    requests and no third pause. *)
Theorem network_failures_retried_then_passed_on m endpoint (w : world unit) :
  let rq := Report.api_call self m endpoint in
  (forall took1 took2 r,
      server (rq :: sent w) = NetworkFailure took1 ->
      server (rq :: rq :: sent w) = Responds took2 r ->
      status_code r <> 429 ->
      Report._make_request server self m endpoint w =
        (Returns r,
         after_http took2 rq
           (after_sleep 2
              (with_output (request_failed_line 0) (after_http took1 rq w)))))
  /\
  (unreachable server ->
   exists w',
     Report._make_request server self m endpoint w
       = (Raises (mkExn RequestException []), w') /\
     sent w' = (rq :: rq :: rq :: sent w) /\
     slept w' = (4 :: 2 :: slept w)).
Proof.
  intros rq. split.
  - intros took1 took2 r Hrep1 Hrep2 Hst. rewrite make_request_unfold.
    fold rq.
    rewrite (for_attempt_network_failure 0 _ _ _ _ Hrep1 ltac:(lia) ltac:(lia)).
    change (2 * (0 + 1)) with 2.
    apply for_attempt_response; assumption.
  - intros Hdown. rewrite make_request_unfold. fold rq.
    destruct (Hdown (rq :: sent w)) as (t1 & Hrep1).
    rewrite (for_attempt_network_failure 0 _ _ _ _ Hrep1 ltac:(lia) ltac:(lia)).
    set (w1 := after_sleep _ _).
    destruct (Hdown (rq :: sent w1)) as (t2 & Hrep2).
    rewrite (for_attempt_network_failure 1 _ _ _ _ Hrep2 ltac:(lia) ltac:(lia)).
    set (w2 := after_sleep _ _).
    destruct (Hdown (rq :: sent w2)) as (t3 & Hrep3).
    rewrite (for_attempt_last_failure _ _ _ _ Hrep3).
    eexists. split; [reflexivity |]. split; reflexivity.
Qed.


Ltac same_slept w :=
  match goal with
  | |- total_slept ?a - _ <= _ =>
      replace (total_slept a) with (total_slept w) by reflexivity
  end.

(** The pauses of a backoff over the given attempts add up to this. *)
Lemma for_attempt_pauses attempts rq :
  never_says_when server ->
  Forall (fun a => 0 <= a) attempts ->
  forall w : world unit,
    total_slept (snd (for_attempt attempts rq w)) - total_slept w
      <= fold_right (fun a acc => 2 * (a + 1) + acc) 0 attempts.
Proof.
  intros Hquiet Hpos. induction Hpos as [| attempt rest Ha Hrest IH]; intros w.
  - cbn. lia.
  - assert (Hsum : 0 <= fold_right (fun a acc => 2 * (a + 1) + acc) 0 rest).
    { clear IH. induction Hrest as [| a l Hal _ IHl]; cbn [fold_right]; lia. }
    cbn [fold_right Report.for_attempt]. unfold bind at 1, try_except.
    unfold bind at 1, http.
    assert (Hstep : forall w1 : world unit,
               total_slept w1 = 2 * (attempt + 1) + total_slept w ->
               total_slept (snd (for_attempt rest rq w1)) - total_slept w
               <= 2 * (attempt + 1)
                  + fold_right (fun a acc => 2 * (a + 1) + acc) 0 rest).
    { intros w1 E. specialize (IH w1). lia. }
    destruct (server (rq :: sent w)) as [took | took r] eqn:Hrep;
      cbn [fst snd cls].
    + change (exn_class_eqb RequestException RequestException) with true.
      cbv iota. destruct (attempt =? Z.of_nat Report.max_retries - 1).
      * unfold reraise. cbn [snd]. same_slept w. lia.
      * unfold bind at 1, log, emit. unfold bind at 1, time_sleep.
        cbn [now sent slept output heap].
        destruct (Report.retry_delay * (attempt + 1) <? 0).
        -- cbn [fst snd]. same_slept w. lia.
        -- apply Hstep. reflexivity.
    + destruct (status_code r =? 429).
      * unfold bind at 1, Report.wait_time_of.
        rewrite (Hquiet _ _ _ Hrep).
        unfold ret at 1. unfold bind at 1, log, emit.
        unfold bind at 1, time_sleep. cbn [now sent slept output heap].
        destruct (Report.retry_delay * (attempt + 1) <? 0).
        -- cbn [fst snd]. same_slept w. lia.
        -- apply Hstep. reflexivity.
      * cbn [fst snd]. same_slept w. lia.
Qed.

(** X13.  When no response carries a [Retry-After] header, one call of
    [_make_request] pauses for at most 2 + 4 + 6 = 12 seconds in all. *)
Theorem backoff_pauses_at_most_12_seconds m endpoint (w : world unit) :
  never_says_when server ->
  total_slept (snd (Report._make_request server self m endpoint w))
    - total_slept w <= 12.
Proof.
  intros Hquiet. rewrite make_request_unfold.
  apply (for_attempt_pauses [0; 1; 2] _ Hquiet).
  repeat constructor; lia.
Qed.

End RetryMore.

(** ** [publish_report] from upload to result *)

Section PublishEndToEnd.

Variable server : Server.
Variable stat : Path -> option Z.
Variable self : Report.PowerBIPublisher.

Lemma import_outcome_succeeded workspace_id fields (w : world unit) :
  state_of fields VNone = VStr "Succeeded" ->
  loggable (listed "reports" fields) ->
  loggable (listed "datasets" fields) ->
  let run := Report.import_outcome workspace_id (VDict fields) w in
  fst run = Returns (VDict fields) /\
  sent (snd run) = sent w /\
  slept (snd run) = slept w.
Proof.
  intros Hstate Hreports Hdatasets. cbv zeta.
  unfold Report.import_outcome.
  rewrite (bind_returns _ _ _ _ _ (dict_get_run _ _ _ _)).
  unfold state_of in Hstate. rewrite Hstate.
  change (eq_str (VStr "Succeeded") "Succeeded") with true. cbv iota.
  rewrite (bind_returns _ _ _ _ _ (log_run _ _ _)).
  rewrite (bind_returns _ _ _ _ _ (dict_get_run _ _ _ _)).
  rewrite (bind_returns _ _ _ _ _ (dict_get_run _ _ _ _)).
  unfold listed in Hreports, Hdatasets.
  destruct Hreports as [-> | (rf & rrest & ->)];
    destruct Hdatasets as [-> | (df & drest & ->)];
    cbn; repeat split; reflexivity.
Qed.

(** X14.  An upload that is accepted and whose first status request already
    reports "Succeeded" makes [publish_report] return that status
    document after two requests, the upload and the status request, and
    without any pause. *)
Theorem publish_succeeds_at_first_poll
    (fuel : nat) (p : Path) (file_size : Z) (workspace_id : string)
    (report_name : value) (w : world unit)
    took1 r1 accepted took2 r2 fields :
  let upload := Report.upload_request self p workspace_id
                  (effective_name p report_name) in
  let import_id := match assoc "id" accepted with
                   | Some i => i
                   | None => VNone
                   end in
  let status_request :=
    Report.api_call self GET
      [Lit "groups/"; FStr workspace_id; Lit "/imports/"; FVal import_id] in
  stat p = Some file_size ->
  lower (suffix p) = ".pbix" ->
  server (upload :: sent w) = Responds took1 r1 ->
  status_code r1 = 200 \/ status_code r1 = 202 ->
  json r1 = Some (VDict accepted) ->
  server (status_request :: upload :: sent w) = Responds took2 r2 ->
  status_code r2 = 200 ->
  json r2 = Some (VDict fields) ->
  state_of fields VNone = VStr "Succeeded" ->
  loggable (listed "reports" fields) ->
  loggable (listed "datasets" fields) ->
  let run := Report.publish_report server stat self (S fuel) p workspace_id
               report_name w in
  fst run = Returns (VDict fields) /\
  sent (snd run) = status_request :: upload :: sent w /\
  slept (snd run) = slept w.
Proof.
  intros upload import_id status_request Hs Hsuf Hrep1 Hst1 Hj1 Hrep2 Hst2 Hj2
    Hstate Hreports Hdatasets. cbv zeta.
  rewrite (publish_report_accepted server stat self p file_size (S fuel)
             workspace_id report_name w took1 r1 accepted Hs Hsuf Hrep1 Hst1 Hj1).
  cbv zeta. fold import_id. fold upload.
  set (polling := with_outputs _ _).
  assert (Hfetch : Report._make_request server self GET
                     [Lit "groups/"; FStr workspace_id; Lit "/imports/";
                      FVal import_id] polling
                   = (Returns r2, after_http took2 status_request polling)).
  { rewrite make_request_unfold. apply for_attempt_response.
    - exact Hrep2.
    - lia. }
  assert (Hearly : now polling - now polling < Report.default_timeout)
    by (unfold Report.default_timeout; lia).
  assert (Hpoll : Report._wait_for_import server self (S fuel) workspace_id
                    import_id Report.default_timeout polling
                  = (Returns (VDict fields),
                     after_http took2 status_request polling)).
  { rewrite report_wait_for_import_unfold.
    rewrite (report_wait_loop_polls server self workspace_id import_id
               (now polling) Report.default_timeout fuel polling _ r2 fields
               Hearly Hfetch Hst2 Hj2).
    cbv zeta. rewrite Hstate. reflexivity. }
  rewrite (bind_returns _ _ _ _ _ Hpoll).
  apply (import_outcome_succeeded workspace_id fields
           (after_http took2 status_request polling) Hstate Hreports Hdatasets).
Qed.

End PublishEndToEnd.

(** ** The authenticator of [publish_powerbi_report.py] *)

Section Authenticator.

Variable getenv : string -> option string.
Variable acquire_token_for_client :
  Report.msal_app -> list string -> exn + list (string * value).

(** X15.  The constructor refuses to build an authenticator unless all three
    variables are set to something non-empty, and its error names exactly
    the ones that are not, in the order client id, client secret, tenant
    id; nothing else about the values is checked. *)
Theorem credentials_checked_at_construction (w : world unit) :
  let missing :=
    filter (fun variable => Report.unset (getenv variable))
      credential_variables in
  Report.init_authenticator getenv w =
    match missing with
    | [] =>
        (Returns (Report.mkAuthenticator (getenv "PBI_CLIENT_ID")
                    (getenv "PBI_CLIENT_SECRET") (getenv "PBI_TENANT_ID")
                    VNone), w)
    | _ =>
        (Raises (mkExn ValueError
                   [Lit "Missing environment variables: ";
                    FStr (String.concat ", " missing);
                    Lit (Report.newline
                         ++ "Required for Service Principal authentication.")]),
         w)
    end.
Proof.
  unfold Report.init_authenticator, Report._validate_credentials,
    credential_variables.
  cbn [filter Report.client_id Report.client_secret Report.tenant_id].
  destruct (Report.unset (getenv "PBI_CLIENT_ID")),
    (Report.unset (getenv "PBI_CLIENT_SECRET")),
    (Report.unset (getenv "PBI_TENANT_ID")); reflexivity.
Qed.

Local Abbreviation authenticate :=
  (Report.authenticate acquire_token_for_client).
Local Abbreviation announced w :=
  (with_output (Logged INFO [Lit "Authenticating with Azure AD..."]) w).

(** X16.  [authenticate] stores the token only when the identity library
    returns one, and then logs no more of the client id than its first
    eight characters.  A refusal, reported with its description in
    preference to its code, and an error raised by the library are logged
    once and passed on, with the stored token left as it was. *)
Theorem authenticate_outcomes (w : world Report.PowerBIAuthenticator) :
  let self := heap w in
  (forall result tok client,
      acquire_token_for_client (application_of self) Report.POWER_BI_SCOPE
        = inr result ->
      assoc "access_token" result = Some tok ->
      Report.client_id self = Some client ->
      authenticate w =
        (Returns tok,
         mkWorld (now w) (sent w) (slept w)
           (Logged INFO [Lit "Authentication successful (Client ID: ";
                         FStr (substring 0 8 client); Lit "...)"]
            :: Logged INFO [Lit "Authenticating with Azure AD..."]
            :: output w)
           (with_token tok self)))
  /\
  (forall result,
      acquire_token_for_client (application_of self) Report.POWER_BI_SCOPE
        = inr result ->
      assoc "access_token" result = None ->
      authenticate w =
        (Raises (mkExn Exception_
                   [Lit "Authentication failed: ";
                    FVal (refusal_reason result)]),
         with_output
           (Logged ERROR [Lit "Authentication failed: ";
                          Lit "Authentication failed: ";
                          FVal (refusal_reason result)])
           (announced w)))
  /\
  (forall e,
      acquire_token_for_client (application_of self) Report.POWER_BI_SCOPE
        = inl e ->
      authenticate w =
        (Raises e,
         with_output (Logged ERROR (Lit "Authentication failed: " :: msg e))
           (announced w))).
Proof.
  intros self. unfold Report.authenticate.
  split; [| split].
  - intros result tok client Hres Htok Hclient.
    rewrite (bind_returns _ _ _ _ _ (log_run _ _ _)).
    unfold try_except_any, bind at 1, get_heap at 1. cbv beta iota.
    change (heap (announced w)) with self.
    fold (application_of self). rewrite Hres, Htok, Hclient.
    reflexivity.
  - intros result Hres Htok.
    rewrite (bind_returns _ _ _ _ _ (log_run _ _ _)).
    unfold try_except_any, bind at 1, get_heap at 1. cbv beta iota.
    change (heap (announced w)) with self.
    fold (application_of self). rewrite Hres, Htok.
    reflexivity.
  - intros e Hres.
    rewrite (bind_returns _ _ _ _ _ (log_run _ _ _)).
    unfold try_except_any, bind at 1, get_heap at 1. cbv beta iota.
    change (heap (announced w)) with self.
    fold (application_of self). rewrite Hres.
    reflexivity.
Qed.

End Authenticator.

(** ** What [publish_report] does after polling, and with a refusal it
       cannot read *)

Section PublishTail.

Variable server : Server.
Variable stat : Path -> option Z.
Variable self : Report.PowerBIPublisher.

Lemma first_get_other_classes v k (w : world unit) :
  not_raised_by_the_script (fst (Report.first_get v k w)).
Proof.
  unfold not_raised_by_the_script.
  destruct v as [| | | | items | fields]; try (cbn; discriminate).
  destruct items as [| x rest]; [cbn; discriminate |].
  destruct x; cbn; discriminate.
Qed.

Lemma bind_other_classes {A B} (c : M unit A) (k : A -> M unit B)
    (w : world unit) :
  not_raised_by_the_script (fst (c w)) ->
  (forall a w1, not_raised_by_the_script (fst (k a w1))) ->
  not_raised_by_the_script (fst (bind c k w)).
Proof.
  intros Hc Hk. unfold bind.
  destruct (c w) as [[a | e |] w1]; cbn [fst] in *.
  - apply Hk.
  - exact Hc.
  - exact Hc.
Qed.

Lemma log_other_classes lvl line (w : world unit) :
  not_raised_by_the_script (fst (log lvl line w)).
Proof. cbn. discriminate. Qed.

Lemma ret_other_classes {A} (a : A) (w : world unit) :
  not_raised_by_the_script (fst (ret a w)).
Proof. cbn. discriminate. Qed.

Lemma succeeded_outcome workspace_id fields (w : world unit) :
  state_of fields VNone = VStr "Succeeded" ->
  not_raised_by_the_script
    (fst (Report.import_outcome workspace_id (VDict fields) w)).
Proof.
  intros Hstate. unfold Report.import_outcome.
  rewrite (bind_returns _ _ _ _ _ (dict_get_run _ _ _ _)).
  unfold state_of in Hstate. rewrite Hstate.
  change (eq_str (VStr "Succeeded") "Succeeded") with true. cbv iota.
  rewrite (bind_returns _ _ _ _ _ (log_run _ _ _)).
  rewrite (bind_returns _ _ _ _ _ (dict_get_run _ _ _ _)).
  rewrite (bind_returns _ _ _ _ _ (dict_get_run _ _ _ _)).
  repeat first
    [ apply ret_other_classes
    | apply log_other_classes
    | apply first_get_other_classes
    | apply bind_other_classes; [| intros ? ?]
    | match goal with
      | |- not_raised_by_the_script (fst ((if ?b then _ else _) _)) =>
          destruct b
      end ].
Qed.

(** X17.  The check of the import state that [publish_report] makes after the
    wait never fires: whenever the wait returns, what follows it does not
    end in the "Import failed" error, which only the wait itself can
    raise. *)
Theorem import_state_check_after_wait_never_fires
    (fuel : nat) (workspace_id : string) (import_id : value) (timeout : Z)
    (w w1 : world unit) status :
  Report._wait_for_import server self fuel workspace_id import_id timeout w
    = (Returns status, w1) ->
  not_raised_by_the_script (fst (Report.import_outcome workspace_id status w1)).
Proof.
  intros Hwait.
  rewrite report_wait_for_import_unfold in Hwait.
  destruct (report_wait_loop_returns server self _ _ _ _ _ _ _ _ Hwait)
    as (fields & -> & Hstate).
  apply succeeded_outcome. exact Hstate.
Qed.

(** X18.  A refusal that [publish_report] cannot read is not reported as a
    failed publication.  When the body of the refused upload is not JSON
    the call ends in the decoding error, before anything about the upload
    is logged; when the [error] entry of the body is a string, it ends in
    [AttributeError].  Either way one request has been sent. *)
Theorem unreadable_refusal_is_not_reported
    (fuel : nat) (p : Path) (file_size : Z) (workspace_id : string)
    (report_name : value) (w : world unit) took r :
  let upload := Report.upload_request self p workspace_id
                  (effective_name p report_name) in
  let uploaded :=
    after_http took upload
      (with_outputs
         (publishing_lines p file_size workspace_id
            (effective_name p report_name)) w) in
  stat p = Some file_size ->
  lower (suffix p) = ".pbix" ->
  server (upload :: sent w) = Responds took r ->
  status_code r <> 200 /\ status_code r <> 202 ->
  (json r = None ->
   Report.publish_report server stat self fuel p workspace_id report_name w
     = (Raises (mkExn JSONDecodeError []), uploaded))
  /\
  (forall fields reason,
      json r = Some (VDict fields) ->
      assoc "error" fields = Some (VStr reason) ->
      Report.publish_report server stat self fuel p workspace_id report_name w
        = (Raises (mkExn AttributeError [Lit "get"]), uploaded)).
Proof.
  intros upload uploaded Hs Hsuf Hrep Hst.
  assert (Hno : Report.not_in (status_code r) [200; 202] = true).
  { apply not_false_iff_true. rewrite report_not_in_success. lia. }
  split.
  - intros Hj.
    rewrite (publish_report_validated server stat self p file_size fuel
               workspace_id report_name w Hs Hsuf).
    rewrite (bind_returns _ _ _ r uploaded (http_responds _ _ _ _ _ Hrep)).
    rewrite Hno. unfold Report.publish_failed.
    apply bind_raises. unfold response_json. rewrite Hj. reflexivity.
  - intros fields reason Hj Herror.
    rewrite (publish_report_validated server stat self p file_size fuel
               workspace_id report_name w Hs Hsuf).
    rewrite (bind_returns _ _ _ r uploaded (http_responds _ _ _ _ _ Hrep)).
    rewrite Hno. unfold Report.publish_failed.
    rewrite (bind_returns _ _ _ _ _ (response_json_run _ _ _ Hj)).
    rewrite (bind_returns _ _ _ _ _ (dict_get_run _ _ _ _)).
    rewrite Herror. reflexivity.
Qed.

End PublishTail.

(** ** Authentication comes first in every call of [PowerBIClient] *)

(** X19.  Every call of the client asks for the token before anything else: when
    the token cannot be had, the call ends in the error of the token
    exchange and sends nothing of its own.  This holds also for
    [delete_report] and [refresh_dataset], which otherwise answer a
    refusal with [False]. *)
Theorem failed_authentication_stops_every_call
    (server : Server) (w w1 : world Publisher.PowerBIAuth) (e : exn)
    (item_id name : string) (workspace_id : value) :
  Publisher.get_token server w = (Raises e, w1) ->
  Publisher.list_workspaces server w = (Raises e, w1) /\
  Publisher.get_workspace_id server name w = (Raises e, w1) /\
  Publisher.list_reports server workspace_id w = (Raises e, w1) /\
  Publisher.get_report server item_id workspace_id w = (Raises e, w1) /\
  Publisher.delete_report server item_id workspace_id w = (Raises e, w1) /\
  Publisher.list_datasets server workspace_id w = (Raises e, w1) /\
  Publisher.refresh_dataset server item_id workspace_id w = (Raises e, w1) /\
  Publisher.get_import_status server item_id workspace_id w = (Raises e, w1) /\
  Publisher._headers server w = (Raises e, w1).
Proof.
  intros Htok.
  assert (Hrequest : forall m endpoint params body,
             Publisher._request server m endpoint params body w
             = (Raises e, w1)).
  { intros. unfold Publisher._request. apply bind_raises. exact Htok. }
  assert (Hlist : Publisher.list_workspaces server w = (Raises e, w1)).
  { unfold Publisher.list_workspaces. apply bind_raises. apply Hrequest. }
  repeat split.
  - exact Hlist.
  - unfold Publisher.get_workspace_id. apply bind_raises. exact Hlist.
  - unfold Publisher.list_reports. apply bind_raises. apply Hrequest.
  - unfold Publisher.get_report. apply bind_raises. apply Hrequest.
  - unfold Publisher.delete_report. apply bind_raises. apply Hrequest.
  - unfold Publisher.list_datasets. apply bind_raises. apply Hrequest.
  - unfold Publisher.refresh_dataset. apply bind_raises. apply Hrequest.
  - unfold Publisher.get_import_status. apply bind_raises. apply Hrequest.
  - unfold Publisher._headers. apply bind_raises. exact Htok.
Qed.

(** ** Concrete runs of the above *)

(** The import succeeds at a later status request of either script. *)
Lemma polling_returns_only_succeeded_witness :
  (exists fields,
     fst (Publisher.wait_for_import Scenario.succeeds_on_second_poll 5 "imp-1"
            VNone 300 5 Scenario.world0) = Returns (VDict fields) /\
     state_of fields (VStr "Unknown") = VStr "Succeeded")
  /\
  (exists fields,
     fst (Report._wait_for_import Scenario.succeeds_on_second_poll
            Scenario.publisher0 5 "ws-1" (VStr "imp-1") 600
            Scenario.report_world0) = Returns (VDict fields) /\
     state_of fields VNone = VStr "Succeeded").
Proof.
  destruct (polling_returns_only_succeeded Scenario.succeeds_on_second_poll
              Scenario.publisher0) as [Hpublisher Hreport].
  split.
  - destruct (Publisher.wait_for_import Scenario.succeeds_on_second_poll 5
                "imp-1" VNone 300 5 Scenario.world0) as [o w'] eqn:Hrun.
    assert (Ho : o = Returns (VDict [("id", VStr "imp-1");
                                     ("importState", VStr "Succeeded")]))
      by (apply (f_equal fst) in Hrun; vm_compute in Hrun; symmetry;
          exact Hrun).
    subst o.
    destruct (Hpublisher _ _ _ _ _ _ _ _ Hrun) as (fields & Hfields & Hstate).
    exists fields. split; [cbn; f_equal; exact Hfields | exact Hstate].
  - destruct (Report._wait_for_import Scenario.succeeds_on_second_poll
                Scenario.publisher0 5 "ws-1" (VStr "imp-1") 600
                Scenario.report_world0) as [o w'] eqn:Hrun.
    assert (Ho : o = Returns (VDict [("id", VStr "imp-1");
                                     ("importState", VStr "Succeeded")]))
      by (apply (f_equal fst) in Hrun; vm_compute in Hrun; symmetry;
          exact Hrun).
    subst o.
    destruct (Hreport _ _ _ _ _ _ _ Hrun) as (fields & Hfields & Hstate).
    exists fields. split; [cbn; f_equal; exact Hfields | exact Hstate].
Defined.

(** A service that takes 700 seconds for every answer, polled every five
    seconds for 300; and the same call with a timeout of 0. *)
Lemma wait_for_import_sleep_budget_witness :
  total_slept (snd (Publisher.wait_for_import Scenario.slow_status 4 "imp-1"
                      VNone 300 5 Scenario.world0))
    - total_slept Scenario.world0 < 300 + 5
  /\
  Publisher.wait_for_import Scenario.slow_status 4 "imp-1" VNone 0 5
    Scenario.world0 = (Raises (timed_out 0), Scenario.world0).
Proof.
  assert (Hpoll : 0 <= 5) by lia.
  split.
  - destruct (wait_for_import_sleep_budget Scenario.slow_status "imp-1" VNone
                300 5 3 Scenario.world0 Hpoll) as [Hbudget _].
    apply Hbudget. lia.
  - destruct (wait_for_import_sleep_budget Scenario.slow_status "imp-1" VNone
                0 5 3 Scenario.world0 Hpoll) as [_ Hnone].
    apply Hnone. lia.
Defined.

(** An import the service does not know: one status request, then the
    error, in both scripts. *)
Lemma refused_status_request_ends_polling_witness :
  (let run := Publisher.wait_for_import Scenario.import_unknown 10 "imp-1"
                VNone 300 5 Scenario.world0 in
   fst run = Raises (mkExn Exception_
                       [Lit "Failed to get import status: ";
                        FStr (text Scenario.not_found)]) /\
   List.length (sent (snd run)) = 2%nat /\
   slept (snd run) = [])
  /\
  (let run := Report._wait_for_import Scenario.import_unknown
                Scenario.publisher0 10 "ws-1" (VStr "imp-1") 300
                Scenario.report_world0 in
   fst run = Raises (mkExn Exception_
                       [Lit "Failed to check import status: ";
                        FStr (text Scenario.not_found)]) /\
   List.length (sent (snd run)) = 1%nat /\
   slept (snd run) = []).
Proof.
  assert (Hpos : 0 < 300) by lia.
  destruct (refused_status_request_ends_polling Scenario.import_unknown
              Scenario.publisher0 9 300 Hpos) as [Hpublisher Hreport].
  split; cbv zeta.
  - rewrite (Hpublisher "imp-1" VNone 5 Scenario.world0
               Scenario.world_authenticated (VStr "tok") 1%N Scenario.not_found
               eq_refl eq_refl);
      [repeat split | cbn; lia].
  - rewrite (Hreport "ws-1" (VStr "imp-1") Scenario.report_world0 1%N
               Scenario.not_found eq_refl);
      [repeat split | cbn; lia | cbn; lia].
Defined.

(** A stale cached token and three ways the exchange can fail. *)
Lemma failed_token_exchange_keeps_cache_witness :
  let w := Scenario.world_cached 1030 in
  let rq := Publisher.token_request (heap w) in
  Publisher.get_token Scenario.out_of_reach w
    = (Raises (mkExn RequestException []), after_http 30 rq w)
  /\
  Publisher.get_token Scenario.always_forbidden w
    = (Raises (mkExn Exception_
                 [Lit "Authentication failed: ";
                  FStr (text Scenario.forbidden)]),
       after_http 1 rq w)
  /\
  Publisher.get_token Scenario.azure_refuses w
    = (Raises (mkExn KeyError [FStr "access_token"]), after_http 1 rq w).
Proof.
  cbv zeta.
  assert (Hstale :
            truthy (Publisher.access_token (heap (Scenario.world_cached 1030)))
              = false \/
            Publisher.token_expiry (heap (Scenario.world_cached 1030)) - 60
              <= now (Scenario.world_cached 1030))
    by (right; cbn; lia).
  split; [| split].
  - destruct (failed_token_exchange_keeps_cache Scenario.out_of_reach
                (Scenario.world_cached 1030) Hstale) as (Hnet & _ & _).
    apply (Hnet 30%N). reflexivity.
  - destruct (failed_token_exchange_keeps_cache Scenario.always_forbidden
                (Scenario.world_cached 1030) Hstale) as (_ & Hstatus & _).
    apply (Hstatus 1%N Scenario.forbidden); [reflexivity | cbn; lia].
  - destruct (failed_token_exchange_keeps_cache Scenario.azure_refuses
                (Scenario.world_cached 1030) Hstale) as (_ & _ & Hkey).
    apply (Hkey 1%N
             (Scenario.json_response 200
                (VDict [("error", VStr "invalid_client")]))
             [("error", VStr "invalid_client")]); reflexivity.
Defined.

(** A service that refuses everything: both calls return [False]. *)
Lemma refusals_come_back_as_false_witness :
  fst (Publisher.delete_report Scenario.always_forbidden "rep-1" VNone
         (Scenario.world_cached 5000)) = Returns false
  /\
  fst (Publisher.refresh_dataset Scenario.always_forbidden "ds-1"
         (VStr "ws-1") (Scenario.world_cached 5000)) = Returns false.
Proof.
  split.
  - destruct (refusals_come_back_as_false Scenario.always_forbidden "rep-1"
                VNone (Scenario.world_cached 5000) (Scenario.world_cached 5000)
                (VStr "cached") eq_refl) as [Hdelete _].
    destruct (Hdelete 1%N Scenario.forbidden eq_refl)
      as (deleted & Hrun & Hiff).
    rewrite Hrun. destruct deleted; [| reflexivity].
    destruct Hiff as [Hiff _]. specialize (Hiff eq_refl). discriminate Hiff.
  - destruct (refusals_come_back_as_false Scenario.always_forbidden "ds-1"
                (VStr "ws-1") (Scenario.world_cached 5000)
                (Scenario.world_cached 5000) (VStr "cached") eq_refl)
      as [_ Hrefresh].
    destruct (Hrefresh 1%N Scenario.forbidden eq_refl)
      as (started & Hrun & Hiff).
    rewrite Hrun. destruct started; [| reflexivity].
    destruct Hiff as [Hiff _]. specialize (Hiff eq_refl). discriminate Hiff.
Defined.

(** A service that answers [{}] to every listing. *)
Lemma listing_without_value_is_empty_witness :
  let w := Scenario.world_cached 5000 in
  fst (Publisher.list_workspaces Scenario.answers_empty w) = Returns (VList [])
  /\ fst (Publisher.get_workspace_id Scenario.answers_empty "Sales" w)
     = Returns VNone
  /\ fst (Publisher.list_reports Scenario.answers_empty (VStr "ws-1") w)
     = Returns (VList [])
  /\ fst (Publisher.list_datasets Scenario.answers_empty VNone w)
     = Returns (VList []).
Proof.
  cbv zeta.
  destruct (listing_without_value_is_empty Scenario.answers_empty (VStr "ws-1")
              "Sales" (Scenario.world_cached 5000) (Scenario.world_cached 5000)
              (VStr "cached") eq_refl 1%N Scenario.empty_object []
              eq_refl eq_refl eq_refl) as (Hgroups & Hreports & _).
  destruct (listing_without_value_is_empty Scenario.answers_empty VNone
              "Sales" (Scenario.world_cached 5000) (Scenario.world_cached 5000)
              (VStr "cached") eq_refl 1%N Scenario.empty_object []
              eq_refl eq_refl eq_refl) as (_ & _ & Hdatasets).
  destruct (Hgroups eq_refl) as [Hl Hid].
  rewrite Hl, Hid, (Hreports eq_refl), (Hdatasets eq_refl).
  repeat split.
Defined.


(** One failure below HTTP and then an answer; and a service out of
    reach. *)
Lemma network_failures_retried_then_passed_on_witness :
  (let run := Report._make_request Scenario.flaky Scenario.publisher0 GET
                [Lit "groups"] Scenario.report_world0 in
   fst run = Returns Scenario.groups_response /\ slept (snd run) = [2])
  /\
  (let run := Report._make_request Scenario.out_of_reach Scenario.publisher0
                GET [Lit "groups"] Scenario.report_world0 in
   fst run = Raises (mkExn RequestException []) /\
   List.length (sent (snd run)) = 3%nat /\
   slept (snd run) = [4; 2]).
Proof.
  split; cbv zeta.
  - destruct (network_failures_retried_then_passed_on Scenario.flaky
                Scenario.publisher0 GET [Lit "groups"] Scenario.report_world0)
      as [Hretry _].
    rewrite (Hretry 3%N 1%N Scenario.groups_response eq_refl eq_refl);
      [split; reflexivity | cbn; lia].
  - destruct (network_failures_retried_then_passed_on Scenario.out_of_reach
                Scenario.publisher0 GET [Lit "groups"] Scenario.report_world0)
      as [_ Hdown].
    destruct Hdown as (w' & Hrun & Hsent & Hslept).
    + intros history. exists 30%N. reflexivity.
    + rewrite Hrun. cbn [fst snd]. rewrite Hsent, Hslept.
      repeat split.
Defined.


(** A busy service that never says when to come back: 2 + 4 + 6. *)
Lemma backoff_pauses_at_most_12_seconds_witness :
  total_slept (snd (Report._make_request Scenario.busy Scenario.publisher0 GET
                      [Lit "groups"] Scenario.report_world0))
    - total_slept Scenario.report_world0 <= 12.
Proof.
  apply (backoff_pauses_at_most_12_seconds Scenario.busy Scenario.publisher0).
  intros history took r Hanswer.
  injection Hanswer as _ <-. reflexivity.
Defined.

(** A 50 MiB report published to a service that is done at the first
    status request. *)
Lemma publish_succeeds_at_first_poll_witness :
  let run := Report.publish_report Scenario.publishes_at_once Scenario.disk
               Scenario.publisher0 3 Scenario.report_file "ws-1" VNone
               Scenario.report_world0 in
  fst run = Returns (VDict Scenario.published) /\
  List.length (sent (snd run)) = 2%nat /\
  slept (snd run) = [].
Proof.
  cbv zeta.
  destruct (publish_succeeds_at_first_poll Scenario.publishes_at_once
              Scenario.disk Scenario.publisher0 2 Scenario.report_file
              (50 * 1024 * 1024) "ws-1" VNone Scenario.report_world0
              30%N (Scenario.import_accepted 202) [("id", VStr "imp-1")]
              1%N (Scenario.json_response 200 (VDict Scenario.published))
              Scenario.published
              eq_refl eq_refl eq_refl (or_intror eq_refl) eq_refl eq_refl
              eq_refl eq_refl eq_refl)
    as (Hresult & Hsent & Hslept).
  - right. eexists. eexists. reflexivity.
  - right. eexists. eexists. reflexivity.
  - rewrite Hresult, Hsent, Hslept. repeat split.
Defined.

(** The identity library grants a token, refuses with a description, and
    raises. *)
Lemma authenticate_outcomes_witness :
  (let run := Report.authenticate Scenario.library_grants
                Scenario.authenticator0 in
   fst run = Returns (VStr "tok") /\
   Report.token (heap (snd run)) = VStr "tok" /\
   output (snd run) =
     [Logged INFO [Lit "Authentication successful (Client ID: ";
                   FStr "01234567"; Lit "...)"];
      Logged INFO [Lit "Authenticating with Azure AD..."]])
  /\
  (let run := Report.authenticate Scenario.library_refuses
                Scenario.authenticator0 in
   fst run = Raises (mkExn Exception_
                       [Lit "Authentication failed: ";
                        FVal (VStr "AADSTS7000215: invalid secret")]) /\
   Report.token (heap (snd run)) = VNone)
  /\
  (let run := Report.authenticate Scenario.library_raises
                Scenario.authenticator0 in
   fst run = Raises (mkExn ValueError
                       [Lit "Unable to get authority configuration"]) /\
   Report.token (heap (snd run)) = VNone).
Proof.
  split; [| split]; cbv zeta.
  - destruct (authenticate_outcomes Scenario.library_grants
                Scenario.authenticator0) as (Hgranted & _ & _).
    rewrite (Hgranted _ (VStr "tok") "0123456789abcdef" eq_refl eq_refl eq_refl).
    repeat split.
  - destruct (authenticate_outcomes Scenario.library_refuses
                Scenario.authenticator0) as (_ & Hrefused & _).
    rewrite (Hrefused _ eq_refl eq_refl). repeat split.
  - destruct (authenticate_outcomes Scenario.library_raises
                Scenario.authenticator0) as (_ & _ & Hraised).
    rewrite (Hraised _ eq_refl). repeat split.
Defined.

(** The import succeeds, and its document lists bare identifiers: what
    follows the wait fails, but not with the "Import failed" error. *)
Lemma import_state_check_after_wait_never_fires_witness :
  exists status w1,
    Report._wait_for_import Scenario.bare_identifiers Scenario.publisher0 5
      "ws-1" (VStr "imp-1") 600 Scenario.report_world0 = (Returns status, w1) /\
    fst (Report.import_outcome "ws-1" status w1)
      = Raises (mkExn AttributeError [Lit "get"]) /\
    not_raised_by_the_script (fst (Report.import_outcome "ws-1" status w1)).
Proof.
  eexists. eexists. split; [vm_compute; reflexivity |].
  split; [reflexivity |].
  apply (import_state_check_after_wait_never_fires Scenario.bare_identifiers
           Scenario.publisher0 5 "ws-1" (VStr "imp-1") 600
           Scenario.report_world0).
  vm_compute. reflexivity.
Defined.

(** A page from a gateway, and a refusal whose [error] is a string. *)
Lemma unreadable_refusal_is_not_reported_witness :
  fst (Report.publish_report Scenario.behind_gateway Scenario.disk
         Scenario.publisher0 3 Scenario.report_file "ws-1" VNone
         Scenario.report_world0)
    = Raises (mkExn JSONDecodeError [])
  /\
  fst (Report.publish_report Scenario.refuses_tersely Scenario.disk
         Scenario.publisher0 3 Scenario.report_file "ws-1" VNone
         Scenario.report_world0)
    = Raises (mkExn AttributeError [Lit "get"]).
Proof.
  split.
  - destruct (unreadable_refusal_is_not_reported Scenario.behind_gateway
                Scenario.disk Scenario.publisher0 3 Scenario.report_file
                (50 * 1024 * 1024) "ws-1" VNone Scenario.report_world0 5%N
                Scenario.bad_gateway eq_refl eq_refl eq_refl) as [Hpage _].
    + cbn. lia.
    + rewrite (Hpage eq_refl). reflexivity.
  - destruct (unreadable_refusal_is_not_reported Scenario.refuses_tersely
                Scenario.disk Scenario.publisher0 3 Scenario.report_file
                (50 * 1024 * 1024) "ws-1" VNone Scenario.report_world0 1%N
                Scenario.terse_refusal eq_refl eq_refl eq_refl) as [_ Hterse].
    + cbn. lia.
    + rewrite (Hterse [("error", VStr "Forbidden")] "Forbidden" eq_refl eq_refl).
      reflexivity.
Defined.

(** An identity provider that refuses: nothing but the token request is
    sent, whichever call is made. *)
Lemma failed_authentication_stops_every_call_witness :
  let refusal :=
    mkExn Exception_
      [Lit "Authentication failed: "; FStr (text Scenario.forbidden)] in
  let after :=
    after_http 1 (Publisher.token_request (heap Scenario.world0))
      Scenario.world0 in
  Publisher.delete_report Scenario.always_forbidden "rep-1" VNone
    Scenario.world0 = (Raises refusal, after)
  /\
  Publisher.get_report Scenario.always_forbidden "rep-1" VNone
    Scenario.world0 = (Raises refusal, after).
Proof.
  cbv zeta.
  destruct (failed_authentication_stops_every_call Scenario.always_forbidden
              Scenario.world0
              (after_http 1 (Publisher.token_request (heap Scenario.world0))
                 Scenario.world0)
              (mkExn Exception_
                 [Lit "Authentication failed: ";
                  FStr (text Scenario.forbidden)])
              "rep-1" "Sales" VNone eq_refl)
    as (_ & _ & _ & Hget & Hdelete & _).
  split.
  - exact Hdelete.
  - exact Hget.
Defined.
